(** * Shipping-bill extractor: the numeric normaliser, the hierarchy
      flattener and the record assembly of [succes.py]

    The development embeds three functions of the program,
    [clean_number], [flatten_to_excel_rows] and the assembling part of
    [process_files], and proves the properties the specification states
    about them.

    Modelling decisions, all taken from the code:
    - a parsed JSON document is a [value], the Python object [json.loads]
      returns: [None], booleans, unbounded integers, binary64 floats,
      strings, lists and dictionaries (insertion ordered);
    - a Python [float] is an IEEE-754 binary64 number, represented by the
      standard library's [spec_float] at precision 53; every operation is
      the correctly rounded one;
    - a Python exception is an explicit outcome: fallible code returns a
      [result];
    - a string is its sequence of UTF-8 bytes.  The character classes the
      code relies on ([\d] of the regular expression, the blanks of
      [str.strip]) are taken on ASCII.  This is exact for every text whose
      characters outside ASCII are neither decimal digits nor blanks (the
      rupee sign, the en dash of a column title, ...); the general
      properties of texts are stated for texts of ASCII characters;
    - a data frame is its ordered column labels and its records.  What
      pandas stores in a cell for a value (it gives each column one type)
      is a parameter, [stored], of which nothing is assumed. *)

From Stdlib Require Import ZArith List String Ascii Bool Lia QArith.
From Stdlib Require Import DecimalString.
From Stdlib Require Import SpecFloat.
Import ListNotations.

Local Open Scope string_scope.
Local Open Scope list_scope.
Local Open Scope Z_scope.

(** ** Exceptions and fallible computations *)

Inductive exn : Type :=
| AttributeError
| TypeError
| ValueError
| OverflowError
| ZeroDivisionError
| KeyError.

Inductive result (A : Type) : Type :=
| Ok (a : A)
| Raise (e : exn).

Arguments Ok {A} a.
Arguments Raise {A} e.

Definition bind {A B : Type} (c : result A) (k : A -> result B) : result B :=
  match c with
  | Ok a => k a
  | Raise e => Raise e
  end.

Notation "x <- c ;; k" := (bind c (fun x => k))
  (at level 61, c at next level, right associativity).

(** A [for] loop whose body updates the loop state [S] and may raise: the
    first exception leaves the loop. *)
Fixpoint for_each {A S : Type} (xs : list A) (body : A -> S -> result S)
  (s : S) : result S :=
  match xs with
  | [] => Ok s
  | x :: rest => s' <- body x s ;; for_each rest body s'
  end.

(** ** Binary64 floats *)

Definition prec : Z := 53.
Definition emax : Z := 1024.

Definition float : Type := spec_float.

Definition pos_zero : float := S754_zero false.

Definition is_finite (f : float) : bool :=
  match f with
  | S754_zero _ | S754_finite _ _ _ => true
  | S754_infinity _ | S754_nan => false
  end.

Definition is_zero (f : float) : bool :=
  match f with S754_zero _ => true | _ => false end.

(** The exact rational a finite float stands for. *)
Definition float_to_Q (f : float) : option Q :=
  match f with
  | S754_zero _ => Some 0%Q
  | S754_finite s m e =>
      let n := if s then Z.neg m else Z.pos m in
      Some (if 0 <=? e then inject_Z (n * 2 ^ e)
            else Qmake n (Z.to_pos (2 ^ (- e))))
  | _ => None
  end.

(** [x] is finite and stands for the rational [q] exactly. *)
Definition exactly (x : float) (q : Q) : Prop :=
  match float_to_Q x with
  | Some q' => (q' == q)%Q
  | None => False
  end.

(** The float nearest to the integer [z] (ties to even); an infinity when
    [z] is out of range. *)
Definition float_of_Z (z : Z) : float := binary_normalize prec emax z 0 false.

(** The float nearest to [(-1)^s * n / d] (ties to even), for [0 <= n]. *)
Definition nearest_ratio (s : bool) (n : Z) (d : positive) : float :=
  match n with
  | Z.pos p => SFdiv prec emax (S754_finite s p 0) (S754_finite false d 0)
  | _ => S754_zero s
  end.

(** [x > 0] for a float [x]. *)
Definition gt_zero (x : float) : bool := SFltb pos_zero x.

(** [a / b] on floats: Python raises on a zero divisor. *)
Definition truediv (a b : float) : result float :=
  if is_zero b then Raise ZeroDivisionError else Ok (SFdiv prec emax a b).

(** [a * 100] for a float [a]: the integer is converted first. *)
Definition times_100 (a : float) : float := SFmul prec emax a (float_of_Z 100).

(** [n / d] rounded to the nearest integer, ties to even ([0 <= n]). *)
Definition div_half_even (n : Z) (d : Z) : Z :=
  let q := n / d in
  let r := n mod d in
  match 2 * r ?= d with
  | Lt => q
  | Gt => q + 1
  | Eq => if Z.even q then q else q + 1
  end.

(** The number of hundredths nearest to [|x|] (ties to even on the exact
    binary value), as the decimal conversions of [round(x, 2)] and of the
    format [.2f] compute it.  [x] is finite. *)
Definition hundredths (x : float) : Z :=
  match x with
  | S754_finite _ m e =>
      if 0 <=? e then Z.pos m * 2 ^ e * 100
      else div_half_even (Z.pos m * 100) (2 ^ (- e))
  | _ => 0
  end.

Definition sign_of (x : float) : bool :=
  match x with
  | S754_zero s | S754_infinity s | S754_finite s _ _ => s
  | S754_nan => false
  end.

(** [round(x, 2)] on a float: infinities and NaN round to themselves; a
    finite [x] goes to its decimal text with two places and back to the
    nearest float, keeping the sign (also of a zero). *)
Definition round2 (x : float) : float :=
  match x with
  | S754_finite s _ _ => nearest_ratio s (hundredths x) 100
  | _ => x
  end.

(** ** Decimal texts *)

Definition string_of_Z (z : Z) : string := NilZero.string_of_int (Z.to_int z).

Definition two_digits (z : Z) : string :=
  if z <? 10 then ("0" ++ string_of_Z z)%string else string_of_Z z.

(** [f"{x:.2f}"] on a float. *)
Definition format_2f (x : float) : string :=
  match x with
  | S754_nan => "nan"
  | S754_infinity s => if s then "-inf" else "inf"
  | _ =>
      let h := hundredths x in
      ((if sign_of x then "-" else "")
         ++ string_of_Z (h / 100) ++ "." ++ two_digits (h mod 100))%string
  end.

Definition is_digit (c : ascii) : bool :=
  let n := N_of_ascii c in ((48 <=? n) && (n <=? 57))%N.

Definition digit_value (c : ascii) : Z := Z.of_N (N_of_ascii c) - 48.

(** The leading digits of [s], read in base ten after [acc], with their
    number and the rest of the text. *)
Fixpoint read_digits (s : string) (acc : Z) (count : nat) : Z * nat * string :=
  match s with
  | String c rest =>
      if is_digit c then read_digits rest (10 * acc + digit_value c) (S count)
      else (acc, count, s)
  | EmptyString => (acc, count, s)
  end.

(** [float(s)] on a text made of digits, points and minus signs (what the
    substitution of [clean_number] leaves): an optional sign, then digits
    with an optional point, at least one digit in all; the value is the
    nearest float, an infinity when it is out of range.  Anything else is
    a [ValueError]. *)
Definition float_of_text (s : string) : result float :=
  let '(neg, body) :=
    match s with
    | String "-" rest => (true, rest)
    | _ => (false, s)
    end in
  let '(ip, ni, after_int) := read_digits body 0 0%nat in
  match after_int with
  | EmptyString =>
      if Nat.eqb ni 0 then Raise ValueError else Ok (nearest_ratio neg ip 1)
  | String "." frac =>
      let '(n, nf, after_frac) := read_digits frac ip 0%nat in
      match after_frac with
      | EmptyString =>
          if Nat.eqb (ni + nf) 0 then Raise ValueError
          else Ok (nearest_ratio neg n (Z.to_pos (10 ^ Z.of_nat nf)))
      | _ => Raise ValueError
      end
  | _ => Raise ValueError
  end.

(** ** Python objects *)

#[local] Set Warnings "-register-all".

(** What [json.loads] returns.  A dictionary keeps its entries in insertion
    order; a key is looked up at its first entry. *)
Inductive value : Type :=
| VNone
| VBool (b : bool)
| VInt (z : Z)
| VFloat (f : float)
| VStr (s : string)
| VList (elements : list value)
| VDict (entries : list (string * value)).

Definition dict : Type := list (string * value).

Fixpoint lookup (key : string) (d : dict) : option value :=
  match d with
  | [] => None
  | (k, v) :: rest => if String.eqb key k then Some v else lookup key rest
  end.

Definition has_key (key : string) (d : dict) : bool :=
  match lookup key d with Some _ => true | None => false end.

(** [bool(v)], the test behind [not v] and [if v:]. *)
Definition truthy (v : value) : bool :=
  match v with
  | VNone => false
  | VBool b => b
  | VInt z => negb (z =? 0)
  | VFloat f => negb (is_zero f)
  | VStr s => negb (String.eqb s "")
  | VList l => match l with [] => false | _ => true end
  | VDict d => match d with [] => false | _ => true end
  end.

(** The value at [key], or [default] when the dictionary has no such key
    (a key bound to [None] or to an empty text is present). *)
Definition field (d : dict) (key : string) (default : value) : value :=
  match lookup key d with
  | Some v => v
  | None => default
  end.

(** [obj.get(key, default)]: only a dictionary has the method. *)
Definition get (obj : value) (key : string) (default : value) : result value :=
  match obj with
  | VDict d => Ok (field d key default)
  | _ => Raise AttributeError
  end.

(** [len(obj)].  Of a text the program only asks whether it is empty. *)
Definition len (obj : value) : result Z :=
  match obj with
  | VStr s => Ok (Z.of_nat (String.length s))
  | VList l => Ok (Z.of_nat (List.length l))
  | VDict d => Ok (Z.of_nat (List.length d))
  | _ => Raise TypeError
  end.

Fixpoint chars (s : string) : list value :=
  match s with
  | EmptyString => []
  | String c rest => VStr (String c EmptyString) :: chars rest
  end.

(** The elements a [for] loop over [obj] visits: those of a list, the keys
    of a dictionary, the characters of a string. *)
Definition iter (obj : value) : result (list value) :=
  match obj with
  | VList l => Ok l
  | VDict d => Ok (map (fun kv => VStr (fst kv)) d)
  | VStr s => Ok (chars s)
  | _ => Raise TypeError
  end.

Definition is_space (c : ascii) : bool :=
  let n := N_of_ascii c in
  ((n =? 32) || ((9 <=? n) && (n <=? 13)) || ((28 <=? n) && (n <=? 31)))%N.

Fixpoint lstrip (s : string) : string :=
  match s with
  | String c rest => if is_space c then lstrip rest else s
  | EmptyString => s
  end.

Fixpoint rstrip (s : string) : string :=
  match s with
  | String c rest =>
      match rstrip rest with
      | EmptyString => if is_space c then EmptyString else String c EmptyString
      | kept => String c kept
      end
  | EmptyString => s
  end.

(** [obj.strip()]: only a string has the method. *)
Definition strip (obj : value) : result string :=
  match obj with
  | VStr s => Ok (rstrip (lstrip s))
  | _ => Raise AttributeError
  end.

(** [float(z)] on an integer: an [OverflowError] when [z] is too large. *)
Definition float_of_int (z : Z) : result float :=
  let f := float_of_Z z in
  if is_finite f then Ok f else Raise OverflowError.

(** A number held by a local variable of the flattener: the integer
    literal [0] of a guarded division, or a float. *)
Inductive number : Type :=
| NInt (z : Z)
| NFloat (f : float).

Definition number_value (n : number) : value :=
  match n with
  | NInt z => VInt z
  | NFloat f => VFloat f
  end.

(** [round(n, 2)]: an integer is returned as it is. *)
Definition round_2 (n : number) : number :=
  match n with
  | NInt z => NInt z
  | NFloat f => NFloat (round2 f)
  end.

(** [f"{n:.2f}"]: an integer is converted to a float first. *)
Definition fmt_2f (n : number) : result string :=
  match n with
  | NInt z => f <- float_of_int z ;; Ok (format_2f f)
  | NFloat f => Ok (format_2f f)
  end.

(** [re.sub(r'[^\d.-]', '', s)]. *)
Definition numeric_char (c : ascii) : bool :=
  is_digit c || Ascii.eqb c "." || Ascii.eqb c "-".

Fixpoint re_sub_non_numeric (s : string) : string :=
  match s with
  | String c rest =>
      if numeric_char c then String c (re_sub_non_numeric rest)
      else re_sub_non_numeric rest
  | EmptyString => EmptyString
  end.

(** ** The program *)

Definition FINAL_COLUMNS : list string :=
  [ "Sr. No.";
    "SB NO.";
    "S/B Date";
    "LEO Date";
    "Customer Name";
    "Final Invoice No.";
    "SB – Solar / Other Goods";
    "Port Code";
    "Incoterms";
    "Country";
    "H.S. ITC (HS Code)";
    "Product Group";
    "Qty";
    "Unit";
    "FOB Value Declared by Us (S/B) in FC";
    "Currency of Export";
    "Custom Exchange Rate (in FC)";
    "LEO Date Exchange Rate (in FC)";
    "FOB Value as per SB in INR";
    "FOB Value as per LEO Ex. Rate in INR";
    "Scheme (ADV/DFIA/Drawback)";
    "DBK %";
    "Drawback Receivable on FOB";
    "RoDTEP %";
    "RoDTEP Receivable";
    "RoDTEP Y/N";
    "Balance RoDTEP" ].

(** A flat row: the dictionary the flattener builds, in key order. *)
Definition row : Type := dict.

Section Program.

(** The text Python's [str] gives for a value that is not a string.  The
    program applies it to a list or a dictionary only, and keeps of the
    text nothing but its digits, points and minus signs. *)
Variable str_of : value -> string.

Definition str (v : value) : string :=
  match v with
  | VStr s => s
  | _ => str_of v
  end.

Definition clean_number (value : value) : result float :=
  if negb (truthy value) then Ok pos_zero
  else
    match value with
    | VBool b => float_of_int (if b then 1 else 0)
    | VInt z => float_of_int z
    | VFloat f => Ok f
    | _ =>
        let clean_str := re_sub_non_numeric (str value) in
        match float_of_text clean_str with
        | Ok f => Ok f
        | Raise _ => Ok pos_zero
        end
    end.

(** The body of the inner loop of [flatten_to_excel_rows], up to the row
    it appends. *)
Definition excel_row (header inv : value) (ex_rate : float) (currency : value)
  (item : value) : result row :=
  v <- get item "FOB Value as per SB in INR" VNone ;;
  fob_inr <- clean_number v ;;
  v <- get item "Qty" VNone ;;
  qty <- clean_number v ;;
  v <- get item "DRAWBACK Receivable on fob" VNone ;;
  dbk_amt <- clean_number v ;;
  v <- get item "RoDTEP RECEIVABLE" VNone ;;
  rodtep_amt <- clean_number v ;;
  fob_fc <- (if gt_zero ex_rate
             then q <- truediv fob_inr ex_rate ;; Ok (NFloat q)
             else Ok (NInt 0)) ;;
  rodtep_pct <- (if gt_zero fob_inr
                 then q <- truediv rodtep_amt fob_inr ;; Ok (NFloat (times_100 q))
                 else Ok (NInt 0)) ;;
  dbk_pct <- (if gt_zero fob_inr
              then q <- truediv dbk_amt fob_inr ;; Ok (NFloat (times_100 q))
              else Ok (NInt 0)) ;;
  v <- get item "PRODUCT GROUP" (VStr "") ;;
  description <- strip v ;;
  let final_scheme := "DRAWBACK" in
  let product_group_val := description in
  let sb_type := description in
  sb_no <- get header "SB NO." (VStr "") ;;
  sb_date <- get header "S/B Date" (VStr "") ;;
  leo_date <- get header "LEO Date" (VStr "") ;;
  customer <- get header "CUSTOMER NAME" (VStr "") ;;
  invoice_no <- get inv "FINAL INVOICE NO" (VStr "") ;;
  port_code <- get header "PORT CODE" (VStr "") ;;
  incoterms <- get inv "INCOTERMS" (VStr "") ;;
  country <- get header "COUNTRY" (VStr "") ;;
  hs_code <- get item "H.S. Itch code" (VStr "") ;;
  unit <- get item "Unit" (VStr "") ;;
  dbk_text <- fmt_2f dbk_pct ;;
  rodtep_text <- fmt_2f rodtep_pct ;;
  Ok [ ("Sr. No.", VStr "");
       ("SB NO.", sb_no);
       ("S/B Date", sb_date);
       ("LEO Date", leo_date);
       ("Customer Name", customer);
       ("Final Invoice No.", invoice_no);
       ("SB – Solar / Other Goods", VStr sb_type);
       ("Port Code", port_code);
       ("Incoterms", incoterms);
       ("Country", country);
       ("H.S. ITC (HS Code)", hs_code);
       ("Product Group", VStr product_group_val);
       ("Qty", VFloat qty);
       ("Unit", unit);
       ("FOB Value Declared by Us (S/B) in FC", number_value (round_2 fob_fc));
       ("Currency of Export", currency);
       ("Custom Exchange Rate (in FC)", VFloat ex_rate);
       ("LEO Date Exchange Rate (in FC)", VFloat ex_rate);
       ("FOB Value as per SB in INR", VFloat (round2 fob_inr));
       ("FOB Value as per LEO Ex. Rate in INR", VFloat (round2 fob_inr));
       ("Scheme (ADV/DFIA/Drawback)", VStr final_scheme);
       ("DBK %", VStr dbk_text);
       ("Drawback Receivable on FOB", VFloat (round2 dbk_amt));
       ("RoDTEP %", VStr rodtep_text);
       ("RoDTEP Receivable", VFloat (round2 rodtep_amt));
       ("RoDTEP Y/N", VStr (if gt_zero rodtep_amt then "Yes" else "No"));
       ("Balance RoDTEP", VFloat (round2 rodtep_amt)) ].

Definition flatten_to_excel_rows (hierarchical_data : value) : result (list row) :=
  header <- get hierarchical_data "shipping_bill_header" (VDict []) ;;
  invoices <- get hierarchical_data "invoices" (VList []) ;;
  invs <- iter invoices ;;
  for_each invs
    (fun inv flat_rows =>
       items <- get inv "items" (VList []) ;;
       n <- len items ;;
       let item_count := if 0 <? n then n else 1 in
       v <- get inv "Custom Exchange Rate in FC" VNone ;;
       ex_rate <- clean_number v ;;
       currency <- get inv "Currency of export" (VStr "USD") ;;
       its <- iter items ;;
       for_each its
         (fun item flat_rows =>
            row <- excel_row header inv ex_rate currency item ;;
            Ok (flat_rows ++ [row]))
         flat_rows)
    [].

(** *** The data frame of the record assembly

    A pandas data frame, as far as the program uses one: the ordered
    column labels and, row by row, one cell per column.  The value of a
    row under a key is [lookup key row], [None] when the row's dictionary
    has no such key. *)
Record DataFrame : Type := {
  columns : list string;
  records : list (list (option value))
}.

Definition mem (c : string) (l : list string) : bool := existsb (String.eqb c) l.

Definition add_key (seen : list string) (k : string) : list string :=
  if mem k seen then seen else seen ++ [k].

Definition add_keys (seen : list string) (r : row) : list string :=
  fold_left add_key (map fst r) seen.

(** What pandas stores for a value.  The constructor gives each column
    one type, chosen from all the values of the column, and stores every
    value in that type: an integer beside floats becomes a float, a
    missing value beside numbers becomes NaN, a text stays as it is.
    That choice is pandas' own: [stored column v] is the cell it makes of
    [v] in a column built from the values [column], and nothing is assumed
    of it. *)
Variable stored : list (option value) -> option value -> option value.

(** [pd.DataFrame(all_data)] on a list of dictionaries: the columns are
    the keys in the order they first appear, and each record holds what
    pandas stores for the values of its row. *)
Definition data_frame (all_data : list row) : DataFrame :=
  let cols := fold_left add_keys all_data [] in
  {| columns := cols;
     records :=
       map (fun r =>
              map (fun c => stored (map (lookup c) all_data) (lookup c r)) cols)
           all_data |}.

(** The cell of column [c] in a record laid out along [cols]. *)
Fixpoint cell (cols : list string) (rec : list (option value)) (c : string)
  : option value :=
  match cols, rec with
  | k :: cols', x :: rec' => if String.eqb c k then x else cell cols' rec' c
  | _, _ => None
  end.

(** [df[labels]]: a label which is not a column is a [KeyError]. *)
Definition select (df : DataFrame) (labels : list string) : result DataFrame :=
  if forallb (fun c => mem c (columns df)) labels
  then Ok {| columns := labels;
             records := map (fun rec => map (cell (columns df) rec) labels)
                            (records df) |}
  else Raise KeyError.

Fixpoint set_cell (cols : list string) (rec : list (option value)) (c : string)
  (v : option value) : list (option value) :=
  match cols, rec with
  | k :: cols', x :: rec' =>
      if String.eqb c k then v :: rec' else x :: set_cell cols' rec' c v
  | _, _ => rec
  end.

Fixpoint zip_with {A B C : Type} (f : A -> B -> C) (l : list A) (l' : list B)
  : list C :=
  match l, l' with
  | a :: r, b :: r' => f a b :: zip_with f r r'
  | _, _ => []
  end.

(** [df[c] = vals], for as many values as rows: the column is overwritten
    where it stands, or added last when the frame has none of that name. *)
Definition assign_column (df : DataFrame) (c : string) (vals : list value)
  : DataFrame :=
  if mem c (columns df)
  then {| columns := columns df;
          records := zip_with (fun rec v => set_cell (columns df) rec c (Some v))
                              (records df) vals |}
  else {| columns := columns df ++ [c];
          records := zip_with (fun rec v => rec ++ [Some v]) (records df) vals |}.

(** [range(1, n + 1)] for a length [n]. *)
Definition range_from_1 (n : nat) : list value :=
  map (fun i => VInt (Z.of_nat i)) (seq 1 n).

(** The projection of the accumulated rows on the canonical columns:
    [pd.DataFrame(all_data)], [safe_columns] and [df[safe_columns]]. *)
Definition project_columns (all_data : list row) : result DataFrame :=
  let df := data_frame all_data in
  let safe_columns := filter (fun c => mem c (columns df)) FINAL_COLUMNS in
  select df safe_columns.

(** The numbering that follows: [df["Sr. No."] = range(1, len(df) + 1)]. *)
Definition number_rows (df : DataFrame) : DataFrame :=
  assign_column df "Sr. No." (range_from_1 (List.length (records df))).

(** *** The batch *)

(** An uploaded file, seen through the two collaborators the program calls
    on it: the text [extract_pdf_text] returns and the object
    [get_hierarchical_json] returns for that text ([None] on a failure). *)
Record uploaded_file : Type := {
  extracted_text : string;
  hierarchical_json : value
}.

(** The part of the session the batch writes. *)
Record session : Type := {
  df : DataFrame;
  show_dashboard : bool
}.

(** The loop of [process_files] over the uploaded files. *)
Definition collect_rows (uploaded_files : list uploaded_file) : result (list row) :=
  for_each uploaded_files
    (fun f all_data =>
       let text := extracted_text f in
       if truthy (VStr text) then
         let json_data := hierarchical_json f in
         if truthy json_data then
           rows <- flatten_to_excel_rows json_data ;;
           Ok (all_data ++ rows)
         else Ok all_data
       else Ok all_data)
    [].

(** [process_files]; [llm] tells whether the model handle exists. *)
Definition process_files (llm : bool) (uploaded_files : list uploaded_file)
  (st : session) : result session :=
  if negb llm then Ok st
  else
    all_data <- collect_rows uploaded_files ;;
    match all_data with
    | _ :: _ =>
        projected <- project_columns all_data ;;
        Ok {| df := number_rows projected; show_dashboard := true |}
    | [] => Ok {| df := df st; show_dashboard := false |}
    end.

(** ** The vocabulary of the properties *)

(** The results of [f] on the elements of [xs], in order, up to the first
    exception. *)
Fixpoint traverse {A B : Type} (f : A -> result B) (xs : list A)
  : result (list B) :=
  match xs with
  | [] => Ok []
  | x :: rest => y <- f x ;; ys <- traverse f rest ;; Ok (y :: ys)
  end.

(** The invoices the outer loop visits and the items the inner loop visits
    (none when the loop cannot start). *)
Definition invoices_of (hierarchical_data : value) : list value :=
  match (v <- get hierarchical_data "invoices" (VList []) ;; iter v) with
  | Ok invs => invs
  | Raise _ => []
  end.

Definition items_of (inv : value) : list value :=
  match (v <- get inv "items" (VList []) ;; iter v) with
  | Ok its => its
  | Raise _ => []
  end.

Definition header_of (hierarchical_data : value) : value :=
  match hierarchical_data with
  | VDict d => field d "shipping_bill_header" (VDict [])
  | _ => VDict []
  end.

(** What the code emits as the currency of an invoice: the value under
    the key, whatever it is, and ["USD"] for an invoice without the key. *)
Definition currency_of (inv : value) : value :=
  match inv with
  | VDict d => field d "Currency of export" (VStr "USD")
  | _ => VStr "USD"
  end.

(** The currency as the specification words it: the invoice's value,
    ["USD"] when that value is absent or empty. *)
Definition claimed_currency (inv : value) : value :=
  match inv with
  | VDict d =>
      match lookup "Currency of export" d with
      | Some v => if truthy v then v else VStr "USD"
      | None => VStr "USD"
      end
  | _ => VStr "USD"
  end.

Definition rate_field (inv : value) : value :=
  match inv with
  | VDict d => field d "Custom Exchange Rate in FC" VNone
  | _ => VNone
  end.


Definition item_total (hierarchical_data : value) : nat :=
  list_sum (map (fun inv => List.length (items_of inv))
                (invoices_of hierarchical_data)).

(** The rows of one invoice and of one document, item after item and
    invoice after invoice: the flattener without its accumulator. *)
Definition invoice_rows (header inv : value) : result (list row) :=
  items <- get inv "items" (VList []) ;;
  _ <- len items ;;
  v <- get inv "Custom Exchange Rate in FC" VNone ;;
  ex_rate <- clean_number v ;;
  currency <- get inv "Currency of export" (VStr "USD") ;;
  its <- iter items ;;
  traverse (excel_row header inv ex_rate currency) its.

Definition rows_in_order (hierarchical_data : value) : result (list row) :=
  header <- get hierarchical_data "shipping_bill_header" (VDict []) ;;
  invoices <- get hierarchical_data "invoices" (VList []) ;;
  invs <- iter invoices ;;
  per_invoice <- traverse (invoice_rows header) invs ;;
  Ok (List.concat per_invoice).

(** [rs] are the rows of the items of [inv], in order, and [rows] those of
    the invoices of a document, in order. *)
Definition invoice_emits (header inv : value) (rs : list row) : Prop :=
  exists ex_rate,
    clean_number (rate_field inv) = Ok ex_rate
    /\ Forall2 (fun item r =>
                 excel_row header inv ex_rate (currency_of inv) item = Ok r)
               (items_of inv) rs.

Definition document_emits (hierarchical_data : value) (rows : list row) : Prop :=
  exists per_invoice,
    rows = List.concat per_invoice
    /\ Forall2 (invoice_emits (header_of hierarchical_data))
               (invoices_of hierarchical_data) per_invoice.

(** The rows of a batch, document after document: the files without text
    or without an extracted object contribute nothing. *)
Definition file_rows (f : uploaded_file) : result (list row) :=
  if truthy (VStr (extracted_text f)) && truthy (hierarchical_json f)
  then rows_in_order (hierarchical_json f)
  else Ok [].

Definition batch_rows (uploaded_files : list uploaded_file) : result (list row) :=
  per_file <- traverse file_rows uploaded_files ;;
  Ok (List.concat per_file).

(** The records of the dataset as the specification words them: row [i]
    (from [k]) carries [k + i] under ["Sr. No."] and, under every other
    canonical column, the cell the data frame built from [all_data] holds
    for what the flat row has there. *)
Fixpoint numbered_from (all_data : list row) (k : Z) (rows : list row)
  : list (list (option value)) :=
  match rows with
  | [] => []
  | r :: rest =>
      map (fun c =>
             if String.eqb c "Sr. No." then Some (VInt k)
             else stored (map (lookup c) all_data) (lookup c r))
          FINAL_COLUMNS
        :: numbered_from all_data (k + 1) rest
  end.

(** The invoice and the item each row comes from, in the order of the
    rows. *)
Definition row_sources (hierarchical_data : value) : list (value * value) :=
  flat_map (fun inv => map (fun item => (inv, item)) (items_of inv))
           (invoices_of hierarchical_data).

(** *** Well-shaped hierarchies

    The shape the extraction contract asks for, as far as the flattener
    depends on it: dictionaries where it calls [get], lists where it
    loops, a text where it strips, and no integer beyond the float range
    where it normalises a number.  Every key may be missing. *)
Definition float_convertible (v : value) : bool :=
  match v with
  | VInt z => is_finite (float_of_Z z)
  | _ => true
  end.

Definition is_text (v : value) : bool :=
  match v with VStr _ => true | _ => false end.

Definition is_dict (v : value) : bool :=
  match v with VDict _ => true | _ => false end.

Definition item_ok (item : value) : bool :=
  match item with
  | VDict d =>
      float_convertible (field d "FOB Value as per SB in INR" VNone)
      && float_convertible (field d "Qty" VNone)
      && float_convertible (field d "DRAWBACK Receivable on fob" VNone)
      && float_convertible (field d "RoDTEP RECEIVABLE" VNone)
      && is_text (field d "PRODUCT GROUP" (VStr ""))
  | _ => false
  end.

Definition invoice_ok (inv : value) : bool :=
  match inv with
  | VDict d =>
      float_convertible (field d "Custom Exchange Rate in FC" VNone)
      && match field d "items" (VList []) with
         | VList its => forallb item_ok its
         | _ => false
         end
  | _ => false
  end.

Definition hierarchy_ok (hierarchical_data : value) : bool :=
  match hierarchical_data with
  | VDict d =>
      is_dict (field d "shipping_bill_header" (VDict []))
      && match field d "invoices" (VList []) with
         | VList invs => forallb invoice_ok invs
         | _ => false
         end
  | _ => false
  end.

Definition fob_field (item : value) : value :=
  match item with
  | VDict d => field d "FOB Value as per SB in INR" VNone
  | _ => VNone
  end.

(** The columns a row takes from the header, each with the header key it
    is read from. *)
Definition header_columns : list (string * string) :=
  [ ("SB NO.", "SB NO.");
    ("S/B Date", "S/B Date");
    ("LEO Date", "LEO Date");
    ("Customer Name", "CUSTOMER NAME");
    ("Port Code", "PORT CODE");
    ("Country", "COUNTRY") ].

End Program.

(** ** Concrete documents *)

(** Scenario 1 of the specification: one invoice at rate 83.0 in USD with
    one item. *)
Definition scenario_1 : value :=
  VDict
    [ ("shipping_bill_header", VDict [("SB NO.", VStr "4471523")]);
      ("invoices",
       VList
         [ VDict
             [ ("FINAL INVOICE NO", VStr "EXP/001");
               ("Currency of export", VStr "USD");
               ("Custom Exchange Rate in FC", VFloat (float_of_Z 83));
               ("items",
                VList
                  [ VDict
                      [ ("PRODUCT GROUP", VStr "SOLAR MODULE");
                        ("Qty", VInt 100);
                        ("FOB Value as per SB in INR", VInt 830000);
                        ("DRAWBACK Receivable on fob", VInt 8300);
                        ("RoDTEP RECEIVABLE", VInt 4150) ] ]) ] ]) ].



(** An invoice whose list of items is empty. *)
Definition invoice_without_items : value :=
  VDict [("FINAL INVOICE NO", VStr "EXP/002"); ("items", VList [])].

Definition document_without_items : value :=
  VDict [("invoices", VList [invoice_without_items])].

(** Dictionaries with [None] under a key the flattener reads. *)
Definition document_with_null_invoices : value :=
  VDict [("invoices", VNone)].

Definition document_with_null_header : value :=
  VDict [ ("shipping_bill_header", VNone);
          ("invoices", VList [VDict [("items", VList [VDict []])]]) ].

(** An invoice whose currency is present and empty, with one item. *)
Definition invoice_with_empty_currency : value :=
  VDict [("Currency of export", VStr ""); ("items", VList [VDict []])].

Definition document_with_empty_currency : value :=
  VDict [("invoices", VList [invoice_with_empty_currency])].

(** A document without header: one invoice at rate 0 with one item whose
    FOB value is 0 while both receivables are positive. *)
Definition zero_amounts_entries : dict :=
  [ ("invoices",
     VList
       [ VDict
           [ ("Custom Exchange Rate in FC", VInt 0);
             ("items",
              VList
                [ VDict
                    [ ("FOB Value as per SB in INR", VStr "0.00");
                      ("DRAWBACK Receivable on fob", VInt 8300);
                      ("RoDTEP RECEIVABLE", VInt 4150) ] ]) ] ]) ].

Definition document_with_zero_amounts : value := VDict zero_amounts_entries.

(** A batch of three files: the second has no text and is skipped. *)
Definition three_files : list uploaded_file :=
  [ {| extracted_text := "SHIPPING BILL 4471523";
       hierarchical_json := scenario_1 |};
    {| extracted_text := "";
       hierarchical_json := scenario_1 |};
    {| extracted_text := "SHIPPING BILL 4471524";
       hierarchical_json := document_with_zero_amounts |} ].

(** Two accumulated rows with a field outside the canonical list and
    without most canonical columns. *)
Definition loose_rows : list row :=
  [ [("Qty", VInt 1); ("Remarks", VStr "x"); ("SB NO.", VStr "1")];
    [("Unit", VStr "NOS"); ("Qty", VInt 2)] ].

(** ** More of the program

    The text the extraction oracle answers with, the text of a document's
    pages, and the session the pages of the application read and write. *)

(** [s.startswith(p)]. *)
Fixpoint starts_with (p s : string) : bool :=
  match p with
  | EmptyString => true
  | String a p' =>
      match s with
      | String b s' => Ascii.eqb a b && starts_with p' s'
      | EmptyString => false
      end
  end.

(** The scan of [s.replace(old, "")], from left to right: [skip] is the
    number of characters of an occurrence still to drop. *)
Fixpoint remove_from (old : string) (skip : nat) (s : string) : string :=
  match s with
  | EmptyString => EmptyString
  | String c rest =>
      match skip with
      | S k => remove_from old k rest
      | O =>
          if starts_with old s
          then remove_from old (String.length old - 1) rest
          else String c (remove_from old 0 rest)
      end
  end.

(** [s.replace(old, "")]: every occurrence of [old] is removed, the
    occurrences being taken from the left without overlap; an empty [old]
    leaves [s] as it is. *)
Definition remove_all (old s : string) : string :=
  match old with
  | EmptyString => s
  | _ => remove_from old 0 s
  end.

(** [p in s]. *)
Fixpoint contains (p s : string) : bool :=
  starts_with p s
  || match s with
     | String _ rest => contains p rest
     | EmptyString => false
     end.

(** What [get_hierarchical_json] hands to [json.loads]:
    [content.replace("```json", "").replace("```", "").strip()]. *)
Definition clean_json (content : string) : string :=
  rstrip (lstrip (remove_all "```" (remove_all "```json" content))).

(** [page.extract_text(layout=True) or ""]: the text of a page, empty
    when the page gives none. *)
Definition page_text (page : option string) : string :=
  match page with
  | Some t => t
  | None => EmptyString
  end.

(** The text [extract_pdf_text] returns for a document whose pages give
    [pages]: the loop adds the text of each page to [full_text]. *)
Definition extract_pdf_text (pages : list (option string)) : string :=
  fold_left (fun full_text page => (full_text ++ page_text page)%string) pages "".

(** [pd.DataFrame()] and [df.empty]: a frame is empty when it has no
    column or no row. *)
Definition empty_frame : DataFrame := {| columns := []; records := [] |}.

Definition df_empty (d : DataFrame) : bool :=
  match columns d, records d with
  | _ :: _, _ :: _ => false
  | _, _ => true
  end.

(** [df[c]]: a label which is not a column is a [KeyError]. *)
Definition column (d : DataFrame) (c : string) : result (list (option value)) :=
  if mem c (columns d)
  then Ok (map (fun rec => cell (columns d) rec c) (records d))
  else Raise KeyError.

(** The columns the dashboard reads for its three figures. *)
Definition metric_columns : list string :=
  [ "Final Invoice No.";
    "FOB Value as per SB in INR";
    "Drawback Receivable on FOB";
    "RoDTEP Receivable" ].

(** The session a first run starts from, and the one the Reset button of
    the dashboard leaves. *)
Definition initial_session : session :=
  {| df := empty_frame; show_dashboard := false |}.

Definition reset_session (st : session) : session :=
  {| df := empty_frame; show_dashboard := false |}.

Section Application.

Variable str_of : value -> string.
Variable stored : list (option value) -> option value -> option value.

(** The sessions the application can be in.  [main] renders the upload
    page while [show_dashboard] is false and the dashboard otherwise; the
    upload page calls [process_files] on a non-empty selection of files,
    the dashboard offers Reset.  A call that raises stores nothing. *)
Inductive reachable : session -> Prop :=
| reach_initial : reachable initial_session
| reach_process (st st' : session) (llm : bool) (uploaded_files : list uploaded_file) :
    reachable st ->
    show_dashboard st = false ->
    uploaded_files <> [] ->
    process_files str_of stored llm uploaded_files st = Ok st' ->
    reachable st'
| reach_reset (st : session) :
    reachable st ->
    show_dashboard st = true ->
    reachable (reset_session st).

End Application.

(** The kinds of value the columns of a flat row hold. *)
Definition float_columns : list string :=
  [ "Qty";
    "Custom Exchange Rate (in FC)";
    "LEO Date Exchange Rate (in FC)";
    "FOB Value as per SB in INR";
    "FOB Value as per LEO Ex. Rate in INR";
    "Drawback Receivable on FOB";
    "RoDTEP Receivable";
    "Balance RoDTEP" ].

Definition text_columns : list string :=
  [ "Sr. No.";
    "SB – Solar / Other Goods";
    "Product Group";
    "Scheme (ADV/DFIA/Drawback)";
    "DBK %";
    "RoDTEP %";
    "RoDTEP Y/N" ].

(** The number of characters of [s] that satisfy [p]. *)
Fixpoint count_if (p : ascii -> bool) (s : string) : nat :=
  match s with
  | EmptyString => 0%nat
  | String c rest => ((if p c then 1 else 0) + count_if p rest)%nat
  end.

(** A text all of whose characters are ASCII.  On such a text the
    classes of the model are those of Python: [\d] is [0-9] and the
    blanks of [strip] are the ASCII blanks. *)
Definition ascii_char (c : ascii) : bool := (N_of_ascii c <? 128)%N.

Fixpoint is_ascii (s : string) : bool :=
  match s with
  | EmptyString => true
  | String c rest => ascii_char c && is_ascii rest
  end.

Definition is_point (c : ascii) : bool := Ascii.eqb c ".".
Definition is_minus (c : ascii) : bool := Ascii.eqb c "-".

Definition behead (s : string) : string :=
  match s with
  | EmptyString => EmptyString
  | String _ rest => rest
  end.

Definition starts_blank (s : string) : bool :=
  match s with
  | String c _ => is_space c
  | EmptyString => false
  end.

Fixpoint ends_blank (s : string) : bool :=
  match s with
  | EmptyString => false
  | String c EmptyString => is_space c
  | String _ rest => ends_blank rest
  end.

Definition drawback_field (item : value) : value :=
  match item with
  | VDict d => field d "DRAWBACK Receivable on fob" VNone
  | _ => VNone
  end.

Definition rodtep_field (item : value) : value :=
  match item with
  | VDict d => field d "RoDTEP RECEIVABLE" VNone
  | _ => VNone
  end.

Definition description_field (item : value) : value :=
  match item with
  | VDict d => field d "PRODUCT GROUP" (VStr "")
  | _ => VStr ""
  end.

(** What an invoice holds under [key], the empty text when it has no such
    key. *)
Definition invoice_field (inv : value) (key : string) : value :=
  match inv with
  | VDict i => field i key (VStr "")
  | _ => VStr ""
  end.

(** An invoice with a number, terms and two items. *)
Definition invoice_with_two_items : value :=
  VDict [ ("FINAL INVOICE NO", VStr "EXP/003");
          ("INCOTERMS", VStr "FOB");
          ("items", VList [VDict [("Qty", VInt 1)]; VDict [("Qty", VInt 2)]]) ].

(** A document with the header [h] and the invoices [invs]. *)
Definition document_of (h : value) (invs : list value) : value :=
  VDict [("shipping_bill_header", h); ("invoices", VList invs)].

(** A file the loop of [process_files] flattens: it has text and an
    extracted object that is truthy. *)
Definition is_processed (f : uploaded_file) : bool :=
  truthy (VStr (extracted_text f)) && truthy (hierarchical_json f).

(** A document the batch can go through: a list in place of a dictionary,
    and two files around it. *)
Definition list_document : value := VList [VInt 1].

Definition batch_with_a_list : list uploaded_file :=
  [ {| extracted_text := "SHIPPING BILL 4471523";
       hierarchical_json := scenario_1 |};
    {| extracted_text := "SHIPPING BILL 4471525";
       hierarchical_json := list_document |};
    {| extracted_text := "SHIPPING BILL 4471524";
       hierarchical_json := document_with_zero_amounts |} ].

(** A batch that yields no row: a file without text, a file without
    object, a document without invoices and one whose invoice is empty. *)
Definition batch_without_rows : list uploaded_file :=
  [ {| extracted_text := ""; hierarchical_json := scenario_1 |};
    {| extracted_text := "SHIPPING BILL"; hierarchical_json := VNone |};
    {| extracted_text := "SHIPPING BILL";
       hierarchical_json := VDict [("shipping_bill_header", VDict [("SB NO.", VStr "1")])] |};
    {| extracted_text := "SHIPPING BILL";
       hierarchical_json := document_without_items |} ].

(** * Properties *)

(** ** The float model at known values

    Texts are parsed to the nearest float; [round(x, 2)] and the format
    [.2f] round the exact binary value, ties to even, and keep the sign. *)

Example float_of_text_accepts :
  float_of_text "-.5" = Ok (S754_finite true 4503599627370496 (-53))
  /\ float_of_text "5." = Ok (float_of_Z 5)
  /\ float_of_text "-0" = Ok (S754_zero true).
Proof. repeat split; vm_compute; reflexivity. Qed.

Example float_of_text_rejects :
  float_of_text "" = Raise ValueError
  /\ float_of_text "." = Raise ValueError
  /\ float_of_text "-" = Raise ValueError
  /\ float_of_text "1.2.3" = Raise ValueError
  /\ float_of_text "1-2" = Raise ValueError.
Proof. repeat split; vm_compute; reflexivity. Qed.

Example round2_of_2_675 :
  (x <- float_of_text "2.675" ;; Ok (round2 x)) = float_of_text "2.67".
Proof. vm_compute. reflexivity. Qed.

Example format_2f_ties_to_even :
  (x <- float_of_text "0.125" ;; Ok (format_2f x)) = Ok "0.12"
  /\ (x <- float_of_text "0.375" ;; Ok (format_2f x)) = Ok "0.38".
Proof. split; vm_compute; reflexivity. Qed.

Example format_2f_keeps_the_sign :
  (x <- float_of_text "-0.001" ;; Ok (format_2f x)) = Ok "-0.00".
Proof. vm_compute. reflexivity. Qed.

Example strip_blanks : strip (VStr "  SOLAR MODULE  ") = Ok "SOLAR MODULE".
Proof. reflexivity. Qed.

(** ** The float nearest to an integer

    [float(z)] rounds [z] to 53 bits, ties to even.  The lemmas below
    follow the rounding of the standard library step by step, to find
    where the result stops being finite. *)














(** ** Loops and traversals *)

Lemma bind_ok {A B : Type} (c : result A) (k : A -> result B) (b : B) :
  bind c k = Ok b -> exists a, c = Ok a /\ k a = Ok b.
Proof.
  destruct c as [a | e]; simpl; intro H.
  - exists a. split; [reflexivity | exact H].
  - discriminate H.
Qed.

(** Splits a hypothesis [x <- c ;; k = Ok b] into its two steps. *)
Ltac bind_inv H :=
  let a := fresh "a" in
  let E := fresh "E" in
  apply bind_ok in H; destruct H as (a & E & H).

Lemma for_each_ext {A S : Type} (body body' : A -> S -> result S) (xs : list A) :
  (forall x s, body x s = body' x s) ->
  forall s, for_each xs body s = for_each xs body' s.
Proof.
  intros Hext. induction xs as [| x rest IH]; intro s; simpl.
  - reflexivity.
  - rewrite Hext. destruct (body' x s) as [s' | e]; simpl; [apply IH | reflexivity].
Qed.

(** A loop that appends one result per element is a traversal. *)
Lemma for_each_append {A B : Type} (f : A -> result B) (xs : list A) :
  forall acc,
    for_each xs (fun x acc => y <- f x ;; Ok (acc ++ [y])) acc
    = (ys <- traverse f xs ;; Ok (acc ++ ys)).
Proof.
  induction xs as [| x rest IH]; intro acc; simpl.
  - rewrite app_nil_r. reflexivity.
  - destruct (f x) as [y | e]; simpl; [| reflexivity].
    rewrite IH. destruct (traverse f rest) as [ys | e]; simpl; [| reflexivity].
    rewrite <- app_assoc. reflexivity.
Qed.

(** A loop that extends the accumulator by a list per element is a
    traversal followed by a concatenation. *)
Lemma for_each_extend {A B : Type} (g : A -> result (list B)) (xs : list A) :
  forall acc,
    for_each xs (fun x acc => ys <- g x ;; Ok (acc ++ ys)) acc
    = (yss <- traverse g xs ;; Ok (acc ++ List.concat yss)).
Proof.
  induction xs as [| x rest IH]; intro acc; simpl.
  - rewrite app_nil_r. reflexivity.
  - destruct (g x) as [ys | e]; simpl; [| reflexivity].
    rewrite IH. destruct (traverse g rest) as [yss | e]; simpl; [| reflexivity].
    rewrite <- app_assoc. reflexivity.
Qed.

Lemma traverse_ok {A B : Type} (f : A -> result B) (xs : list A) (ys : list B) :
  traverse f xs = Ok ys -> Forall2 (fun x y => f x = Ok y) xs ys.
Proof.
  revert ys. induction xs as [| x rest IH]; intros ys H; simpl in H.
  - injection H as <-. constructor.
  - bind_inv H. bind_inv H. injection H as <-.
    constructor; [assumption | apply IH; assumption].
Qed.

Lemma traverse_total {A B : Type} (f : A -> result B) (xs : list A) :
  Forall (fun x => exists y, f x = Ok y) xs -> exists ys, traverse f xs = Ok ys.
Proof.
  induction 1 as [| x rest (y & Hy) _ (ys & Hys)]; simpl.
  - exists []. reflexivity.
  - exists (y :: ys). rewrite Hy, Hys. reflexivity.
Qed.

Lemma traverse_raise {A B : Type} (f : A -> result B) (xs : list A) (e : exn) :
  traverse f xs = Raise e -> exists x, In x xs /\ f x = Raise e.
Proof.
  induction xs as [| x rest IH]; simpl; intro H.
  - discriminate H.
  - destruct (f x) as [y | e'] eqn:Hx; simpl in H.
    + destruct (traverse f rest) as [ys | e'']; simpl in H; [discriminate H |].
      destruct (IH H) as (x' & Hin & Hx'). exists x'. auto.
    + exists x. split; [left; reflexivity | congruence].
Qed.

Lemma Forall2_length_concat {A B : Type} (R : A -> list B -> Prop)
  (count : A -> nat) (xs : list A) (yss : list (list B)) :
  Forall2 R xs yss ->
  (forall x ys, R x ys -> List.length ys = count x) ->
  List.length (List.concat yss) = list_sum (map count xs).
Proof.
  intros H Hcount. induction H as [| x ys xs' yss' Hxy _ IH]; simpl.
  - reflexivity.
  - rewrite length_app, IH, (Hcount _ _ Hxy). reflexivity.
Qed.

Lemma Forall2_Forall_in {A B : Type} (R : A -> B -> Prop) (P : B -> Prop)
  (xs : list A) (ys : list B) :
  Forall2 R xs ys ->
  (forall x y, In x xs -> R x y -> P y) ->
  Forall P ys.
Proof.
  induction 1 as [| x y xs' ys' Hxy _ IH]; intro HP; constructor.
  - apply (HP x); [left; reflexivity | exact Hxy].
  - apply IH. intros x' y' Hin. apply HP. right. exact Hin.
Qed.

Lemma Forall2_head {A B : Type} (R : A -> B -> Prop) (x : A) (xs : list A)
  (y : B) (ys : list B) :
  Forall2 R (x :: xs) (y :: ys) -> R x y.
Proof. intro H. inversion H. assumption. Qed.

Section Properties.

Variable str_of : value -> string.
Variable stored : list (option value) -> option value -> option value.

(** ** The flattener is an ordered traversal *)

Lemma flatten_is_rows_in_order (hierarchical_data : value) :
  flatten_to_excel_rows str_of hierarchical_data
  = rows_in_order str_of hierarchical_data.
Proof.
  unfold flatten_to_excel_rows, rows_in_order.
  destruct (get hierarchical_data "shipping_bill_header" (VDict [])) as [header | e];
    simpl; [| reflexivity].
  destruct (get hierarchical_data "invoices" (VList [])) as [invoices | e];
    simpl; [| reflexivity].
  destruct (iter invoices) as [invs | e]; simpl; [| reflexivity].
  rewrite (for_each_ext _
             (fun inv acc => rows <- invoice_rows str_of header inv ;; Ok (acc ++ rows))).
  - rewrite for_each_extend. reflexivity.
  - intros inv acc. unfold invoice_rows.
    destruct (get inv "items" (VList [])) as [items | e]; simpl; [| reflexivity].
    destruct (len items) as [n | e]; simpl; [| reflexivity].
    destruct (get inv "Custom Exchange Rate in FC" VNone) as [v | e];
      simpl; [| reflexivity].
    destruct (clean_number str_of v) as [ex_rate | e]; simpl; [| reflexivity].
    destruct (get inv "Currency of export" (VStr "USD")) as [currency | e];
      simpl; [| reflexivity].
    destruct (iter items) as [its | e]; simpl; [| reflexivity].
    apply for_each_append.
Qed.

Lemma collect_is_batch_rows (uploaded_files : list uploaded_file) :
  collect_rows str_of uploaded_files = batch_rows str_of uploaded_files.
Proof.
  unfold collect_rows, batch_rows.
  rewrite (for_each_ext _
             (fun f acc => rows <- file_rows str_of f ;; Ok (acc ++ rows))).
  - rewrite for_each_extend. reflexivity.
  - intros f acc. unfold file_rows.
    destruct (truthy (VStr (extracted_text f))); simpl; [| rewrite app_nil_r; reflexivity].
    destruct (truthy (hierarchical_json f)); simpl; [| rewrite app_nil_r; reflexivity].
    rewrite flatten_is_rows_in_order. reflexivity.
Qed.

Lemma invoice_rows_emits (header inv : value) (rs : list row) :
  invoice_rows str_of header inv = Ok rs -> invoice_emits str_of header inv rs.
Proof.
  unfold invoice_rows. intro H.
  destruct inv as [| | | | | |i]; try discriminate H.
  simpl in H. bind_inv H. bind_inv H. bind_inv H.
  exists a0. split; [exact E0 |].
  unfold items_of, currency_of. simpl. rewrite E1.
  apply traverse_ok. exact H.
Qed.

Lemma rows_in_order_emits (hierarchical_data : value) (rows : list row) :
  rows_in_order str_of hierarchical_data = Ok rows ->
  document_emits str_of hierarchical_data rows.
Proof.
  unfold rows_in_order. intro H.
  destruct hierarchical_data as [| | | | | |d]; try discriminate H.
  simpl in H. bind_inv H. bind_inv H. injection H as <-.
  exists a0. split; [reflexivity |].
  unfold invoices_of, header_of. simpl. rewrite E.
  apply traverse_ok in E0.
  eapply Forall2_impl; [| exact E0].
  intros inv rs. apply invoice_rows_emits.
Qed.

Lemma flatten_emits (hierarchical_data : value) (rows : list row) :
  flatten_to_excel_rows str_of hierarchical_data = Ok rows ->
  document_emits str_of hierarchical_data rows.
Proof.
  rewrite flatten_is_rows_in_order. apply rows_in_order_emits.
Qed.

(** ** One row *)

Lemma gt_zero_not_zero (x : float) : gt_zero x = true -> is_zero x = false.
Proof. destruct x; simpl; intro H; [discriminate H | reflexivity ..]. Qed.

Lemma guarded_quotient (a b : float) :
  (if gt_zero b then q <- truediv a b ;; Ok (NFloat q) else Ok (NInt 0))
  = Ok (if gt_zero b then NFloat (SFdiv prec emax a b) else NInt 0).
Proof.
  destruct (gt_zero b) eqn:Hb; [| reflexivity].
  unfold truediv. rewrite (gt_zero_not_zero _ Hb). reflexivity.
Qed.

Lemma guarded_percentage (a b : float) :
  (if gt_zero b then q <- truediv a b ;; Ok (NFloat (times_100 q)) else Ok (NInt 0))
  = Ok (if gt_zero b then NFloat (times_100 (SFdiv prec emax a b)) else NInt 0).
Proof.
  destruct (gt_zero b) eqn:Hb; [| reflexivity].
  unfold truediv. rewrite (gt_zero_not_zero _ Hb). reflexivity.
Qed.

Lemma fmt_2f_guarded (x : float) (b : bool) :
  fmt_2f (if b then NFloat x else NInt 0)
  = Ok (if b then format_2f x else "0.00").
Proof. destruct b; reflexivity. Qed.

(** A row that is emitted was computed from three dictionaries, by the
    guarded formulas of the loop body. *)
Lemma excel_row_shape (header inv : value) (ex_rate : float) (currency item : value)
  (r : row) :
  excel_row str_of header inv ex_rate currency item = Ok r ->
  exists h i d fob_inr qty dbk_amt rodtep_amt description,
    header = VDict h /\ inv = VDict i /\ item = VDict d
    /\ clean_number str_of (field d "FOB Value as per SB in INR" VNone) = Ok fob_inr
    /\ clean_number str_of (field d "Qty" VNone) = Ok qty
    /\ clean_number str_of (field d "DRAWBACK Receivable on fob" VNone) = Ok dbk_amt
    /\ clean_number str_of (field d "RoDTEP RECEIVABLE" VNone) = Ok rodtep_amt
    /\ strip (field d "PRODUCT GROUP" (VStr "")) = Ok description
    /\ r = [ ("Sr. No.", VStr "");
             ("SB NO.", field h "SB NO." (VStr ""));
             ("S/B Date", field h "S/B Date" (VStr ""));
             ("LEO Date", field h "LEO Date" (VStr ""));
             ("Customer Name", field h "CUSTOMER NAME" (VStr ""));
             ("Final Invoice No.", field i "FINAL INVOICE NO" (VStr ""));
             ("SB – Solar / Other Goods", VStr description);
             ("Port Code", field h "PORT CODE" (VStr ""));
             ("Incoterms", field i "INCOTERMS" (VStr ""));
             ("Country", field h "COUNTRY" (VStr ""));
             ("H.S. ITC (HS Code)", field d "H.S. Itch code" (VStr ""));
             ("Product Group", VStr description);
             ("Qty", VFloat qty);
             ("Unit", field d "Unit" (VStr ""));
             ("FOB Value Declared by Us (S/B) in FC",
              number_value
                (round_2 (if gt_zero ex_rate
                          then NFloat (SFdiv prec emax fob_inr ex_rate)
                          else NInt 0)));
             ("Currency of Export", currency);
             ("Custom Exchange Rate (in FC)", VFloat ex_rate);
             ("LEO Date Exchange Rate (in FC)", VFloat ex_rate);
             ("FOB Value as per SB in INR", VFloat (round2 fob_inr));
             ("FOB Value as per LEO Ex. Rate in INR", VFloat (round2 fob_inr));
             ("Scheme (ADV/DFIA/Drawback)", VStr "DRAWBACK");
             ("DBK %",
              VStr (if gt_zero fob_inr
                    then format_2f (times_100 (SFdiv prec emax dbk_amt fob_inr))
                    else "0.00"));
             ("Drawback Receivable on FOB", VFloat (round2 dbk_amt));
             ("RoDTEP %",
              VStr (if gt_zero fob_inr
                    then format_2f (times_100 (SFdiv prec emax rodtep_amt fob_inr))
                    else "0.00"));
             ("RoDTEP Receivable", VFloat (round2 rodtep_amt));
             ("RoDTEP Y/N", VStr (if gt_zero rodtep_amt then "Yes" else "No"));
             ("Balance RoDTEP", VFloat (round2 rodtep_amt)) ].
Proof.
  unfold excel_row. intro H.
  destruct item as [| | | | | |d]; try discriminate H.
  cbn [get bind] in H.
  destruct (clean_number str_of (field d "FOB Value as per SB in INR" VNone))
    as [fob_inr | e] eqn:Hfob; [| discriminate H].
  destruct (clean_number str_of (field d "Qty" VNone))
    as [qty | e] eqn:Hqty; [| discriminate H].
  destruct (clean_number str_of (field d "DRAWBACK Receivable on fob" VNone))
    as [dbk_amt | e] eqn:Hdbk; [| discriminate H].
  destruct (clean_number str_of (field d "RoDTEP RECEIVABLE" VNone))
    as [rodtep_amt | e] eqn:Hrod; [| discriminate H].
  cbn [bind] in H.
  rewrite guarded_quotient, !guarded_percentage in H. cbn [bind] in H.
  destruct (strip (field d "PRODUCT GROUP" (VStr ""))) as [description | e] eqn:Hpg;
    [| discriminate H].
  cbn [bind] in H.
  destruct header as [| | | | | |h]; try discriminate H.
  cbn [get bind] in H.
  destruct inv as [| | | | | |i]; try discriminate H.
  cbn [get bind] in H.
  rewrite !fmt_2f_guarded in H. cbn [bind] in H.
  injection H as <-.
  exists h, i, d, fob_inr, qty, dbk_amt, rodtep_amt, description.
  repeat split; first [reflexivity | assumption].
Qed.

(** ** Where the program can raise *)

(** The normaliser raises on one kind of input only: an integer too large
    for a float. *)
Lemma clean_number_raise (v : value) (e : exn) :
  clean_number str_of v = Raise e ->
  e = OverflowError /\ float_convertible v = false.
Proof.
  unfold clean_number.
  destruct (truthy v); cbn [negb]; [| discriminate].
  destruct v as [| b | z | f | s | l | d]; simpl.
  - destruct (float_of_text (re_sub_non_numeric (str_of VNone))); discriminate.
  - destruct b; vm_compute; discriminate.
  - unfold float_of_int. destruct (is_finite (float_of_Z z)); [discriminate |].
    intro H. injection H as <-. split; reflexivity.
  - discriminate.
  - destruct (float_of_text (re_sub_non_numeric s)); discriminate.
  - destruct (float_of_text (re_sub_non_numeric (str_of (VList l)))); discriminate.
  - destruct (float_of_text (re_sub_non_numeric (str_of (VDict d)))); discriminate.
Qed.

Lemma clean_number_total (v : value) :
  float_convertible v = true -> exists f, clean_number str_of v = Ok f.
Proof.
  intro Hv. destruct (clean_number str_of v) as [f | e] eqn:H.
  - exists f. reflexivity.
  - apply clean_number_raise in H. destruct H as [_ H]. congruence.
Qed.

Lemma excel_row_total (h i : dict) (ex_rate : float) (currency item : value) :
  item_ok item = true ->
  exists r, excel_row str_of (VDict h) (VDict i) ex_rate currency item = Ok r.
Proof.
  intro Hok. destruct item as [| | | | | |d]; try discriminate Hok.
  simpl in Hok.
  repeat (apply andb_prop in Hok; let H := fresh "H" in destruct Hok as [Hok H]).
  destruct (clean_number_total _ Hok) as (fob_inr & Hfob).
  destruct (clean_number_total _ H2) as (qty & Hqty).
  destruct (clean_number_total _ H1) as (dbk_amt & Hdbk).
  destruct (clean_number_total _ H0) as (rodtep_amt & Hrod).
  destruct (field d "PRODUCT GROUP" (VStr "")) as [| | | | text | |] eqn:Hpg;
    try discriminate H.
  unfold excel_row. cbn [get bind].
  rewrite Hfob, Hqty, Hdbk, Hrod. cbn [bind].
  rewrite guarded_quotient, !guarded_percentage. cbn [bind].
  rewrite Hpg. cbn [strip bind].
  rewrite !fmt_2f_guarded. cbn [bind].
  eexists. reflexivity.
Qed.

Lemma invoice_rows_total (h : dict) (inv : value) :
  invoice_ok inv = true -> exists rs, invoice_rows str_of (VDict h) inv = Ok rs.
Proof.
  intro Hok. destruct inv as [| | | | | |i]; try discriminate Hok.
  simpl in Hok. apply andb_prop in Hok. destruct Hok as [Hrate Hitems].
  destruct (field i "items" (VList [])) as [| | | | | its |] eqn:Hits;
    try discriminate Hitems.
  destruct (clean_number_total _ Hrate) as (ex_rate & Hex).
  unfold invoice_rows. cbn [get bind]. rewrite Hits. cbn [len iter bind].
  rewrite Hex. cbn [bind].
  apply traverse_total. apply Forall_forall. intros item Hin.
  apply excel_row_total.
  rewrite forallb_forall in Hitems. apply Hitems. exact Hin.
Qed.

Lemma rows_in_order_total (hierarchical_data : value) :
  hierarchy_ok hierarchical_data = true ->
  exists rows, rows_in_order str_of hierarchical_data = Ok rows.
Proof.
  intro Hok. destruct hierarchical_data as [| | | | | |d]; try discriminate Hok.
  simpl in Hok. apply andb_prop in Hok. destruct Hok as [Hheader Hinvs].
  destruct (field d "shipping_bill_header" (VDict [])) as [| | | | | |h] eqn:Hh;
    try discriminate Hheader.
  destruct (field d "invoices" (VList [])) as [| | | | | invs |] eqn:Hi;
    try discriminate Hinvs.
  unfold rows_in_order. cbn [get bind]. rewrite Hh, Hi. cbn [iter bind].
  destruct (traverse_total (invoice_rows str_of (VDict h)) invs) as (rss & Hrss).
  - apply Forall_forall. intros inv Hin. apply invoice_rows_total.
    rewrite forallb_forall in Hinvs. apply Hinvs. exact Hin.
  - rewrite Hrss. eexists. reflexivity.
Qed.

Lemma emits_length (hierarchical_data : value) (rows : list row) :
  document_emits str_of hierarchical_data rows ->
  List.length rows = item_total hierarchical_data.
Proof.
  intros (rss & -> & H). unfold item_total.
  apply (Forall2_length_concat _ _ _ _ H).
  intros inv rs (ex_rate & _ & Hrs).
  symmetry. eapply Forall2_length. exact Hrs.
Qed.

Lemma emits_rows (P : row -> Prop) (hierarchical_data : value) (rows : list row) :
  document_emits str_of hierarchical_data rows ->
  (forall inv item ex_rate r,
      In inv (invoices_of hierarchical_data) ->
      In item (items_of inv) ->
      clean_number str_of (rate_field inv) = Ok ex_rate ->
      excel_row str_of (header_of hierarchical_data) inv ex_rate
        (currency_of inv) item = Ok r ->
      P r) ->
  Forall P rows.
Proof.
  intros (rss & -> & H) HP.
  induction H as [| inv rs invs rss' (ex_rate & Hrate & Hrs) _ IH]; simpl.
  - constructor.
  - apply Forall_app. split.
    + apply (Forall2_Forall_in _ _ _ _ Hrs).
      intros item r Hitem Hr.
      eapply HP; [left; reflexivity | exact Hitem | exact Hrate | exact Hr].
    + apply IH. intros inv' item ex_rate' r Hinv. apply HP. right. exact Hinv.
Qed.

(** Row by row: each emitted row stands at the place of the invoice and
    the item it was computed from. *)
Lemma emits_sources (P : value * value -> row -> Prop) (hierarchical_data : value)
  (rows : list row) :
  document_emits str_of hierarchical_data rows ->
  (forall inv item ex_rate r,
      clean_number str_of (rate_field inv) = Ok ex_rate ->
      excel_row str_of (header_of hierarchical_data) inv ex_rate
        (currency_of inv) item = Ok r ->
      P (inv, item) r) ->
  Forall2 P (row_sources hierarchical_data) rows.
Proof.
  intros (rss & -> & H) HP. unfold row_sources.
  induction H as [| inv rs invs rss' (ex_rate & Hrate & Hrs) _ IH];
    cbn [List.concat flat_map].
  - constructor.
  - apply Forall2_app; [clear IH | exact IH].
    induction Hrs as [| item r its' rs' Hr _ IHrs]; cbn [map].
    + constructor.
    + constructor; [apply (HP _ _ _ _ Hrate Hr) | exact IHrs].
Qed.

Lemma emits_column (col : string) (cell_of : value -> option value)
  (hierarchical_data : value) (rows : list row) :
  document_emits str_of hierarchical_data rows ->
  (forall inv item ex_rate r,
      excel_row str_of (header_of hierarchical_data) inv ex_rate
        (currency_of inv) item = Ok r ->
      lookup col r = cell_of inv) ->
  map (lookup col) rows
  = flat_map (fun inv => map (fun _ => cell_of inv) (items_of inv))
             (invoices_of hierarchical_data).
Proof.
  intros (rss & -> & H) Hcol.
  induction H as [| inv rs invs rss' (ex_rate & Hrate & Hrs) _ IH];
    cbn [List.concat flat_map].
  - reflexivity.
  - rewrite map_app. f_equal; [clear IH | exact IH].
    induction Hrs as [| item r its' rs' Hr _ IHrs]; simpl.
    + reflexivity.
    + f_equal; [apply (Hcol _ _ _ _ Hr) | exact IHrs].
Qed.

Lemma excel_row_raise (header inv : value) (ex_rate : float)
  (currency item : value) (e : exn) :
  excel_row str_of header inv ex_rate currency item = Raise e ->
  e = AttributeError \/ e = OverflowError.
Proof.
  unfold excel_row. intro H.
  destruct item as [| | | | | |d]; try (injection H as <-; left; reflexivity).
  cbn [get bind] in H.
  destruct (clean_number str_of (field d "FOB Value as per SB in INR" VNone))
    as [fob_inr | e1] eqn:H1; cbn [bind] in H;
    [| injection H as <-; right; exact (proj1 (clean_number_raise _ _ H1))].
  destruct (clean_number str_of (field d "Qty" VNone))
    as [qty | e2] eqn:H2; cbn [bind] in H;
    [| injection H as <-; right; exact (proj1 (clean_number_raise _ _ H2))].
  destruct (clean_number str_of (field d "DRAWBACK Receivable on fob" VNone))
    as [dbk_amt | e3] eqn:H3; cbn [bind] in H;
    [| injection H as <-; right; exact (proj1 (clean_number_raise _ _ H3))].
  destruct (clean_number str_of (field d "RoDTEP RECEIVABLE" VNone))
    as [rodtep_amt | e4] eqn:H4; cbn [bind] in H;
    [| injection H as <-; right; exact (proj1 (clean_number_raise _ _ H4))].
  rewrite guarded_quotient, !guarded_percentage in H. cbn [bind] in H.
  destruct (field d "PRODUCT GROUP" (VStr "")) as [| | | | text | |];
    cbn [strip bind] in H; try (injection H as <-; left; reflexivity).
  destruct header as [| | | | | |h];
    cbn [get bind] in H; try (injection H as <-; left; reflexivity).
  destruct inv as [| | | | | |i];
    cbn [get bind] in H; try (injection H as <-; left; reflexivity).
  rewrite !fmt_2f_guarded in H. cbn [bind] in H. discriminate H.
Qed.

(** The exceptions that leave the flattener. *)
Lemma flatten_raise (hierarchical_data : value) (e : exn) :
  flatten_to_excel_rows str_of hierarchical_data = Raise e ->
  e = AttributeError \/ e = TypeError \/ e = OverflowError.
Proof.
  rewrite flatten_is_rows_in_order. unfold rows_in_order. intro H.
  destruct hierarchical_data as [| | | | | |d];
    try (injection H as <-; left; reflexivity).
  cbn [get bind] in H.
  destruct (iter (field d "invoices" (VList []))) as [invs | e1] eqn:Hinvs;
    cbn [bind] in H.
  2:{ injection H as <-. right. left.
      destruct (field d "invoices" (VList [])); simpl in Hinvs; congruence. }
  destruct (traverse (invoice_rows str_of (field d "shipping_bill_header" (VDict []))) invs)
    as [rss | e2] eqn:Hrss; cbn [bind] in H; [discriminate H |].
  injection H as <-.
  apply traverse_raise in Hrss. destruct Hrss as (inv & _ & Hinv).
  unfold invoice_rows in Hinv.
  destruct inv as [| | | | | |i]; try (injection Hinv as <-; left; reflexivity).
  cbn [get bind] in Hinv.
  destruct (len (field i "items" (VList []))) as [n | e3] eqn:Hlen;
    cbn [bind] in Hinv.
  2:{ injection Hinv as <-. right. left.
      destruct (field i "items" (VList [])); simpl in Hlen; congruence. }
  destruct (clean_number str_of (field i "Custom Exchange Rate in FC" VNone))
    as [ex_rate | e4] eqn:Hrate; cbn [bind] in Hinv;
    [| injection Hinv as <-; right; right; exact (proj1 (clean_number_raise _ _ Hrate))].
  destruct (iter (field i "items" (VList []))) as [its | e5] eqn:Hits;
    cbn [bind] in Hinv.
  2:{ injection Hinv as <-. right. left.
      destruct (field i "items" (VList [])); simpl in Hits; congruence. }
  apply traverse_raise in Hinv. destruct Hinv as (item & _ & Hitem).
  apply excel_row_raise in Hitem. tauto.
Qed.

Lemma zero_not_gt_zero (x : float) : is_zero x = true -> gt_zero x = false.
Proof. destruct x; simpl; intro H; [reflexivity | discriminate H ..]. Qed.

(** ** The flattener: row count, currency, duplicated columns *)


(** C3 (as amended).  Row by row, the emitted ["Currency of Export"] is
    the value the row's invoice holds under ["Currency of export"], and it
    is ["USD"] for an invoice that has no such key.  A key that is present
    is emitted with the value it has, an empty text or [None] included:
    only absence gives the default. *)
Theorem C3_currency_defaults_on_missing_key (hierarchical_data : value)
  (rows : list row) :
  flatten_to_excel_rows str_of hierarchical_data = Ok rows ->
  map (lookup "Currency of Export") rows
  = flat_map (fun inv => map (fun _ => Some (currency_of inv)) (items_of inv))
             (invoices_of hierarchical_data)
  /\ (forall i, lookup "Currency of export" i = None ->
                currency_of (VDict i) = VStr "USD")
  /\ (forall i v, lookup "Currency of export" i = Some v ->
                  currency_of (VDict i) = v).
Proof.
  intro H. apply flatten_emits in H. split; [| split].
  - apply (emits_column _ (fun inv => Some (currency_of inv)) _ _ H).
    intros inv item ex_rate r Hr.
    apply excel_row_shape in Hr.
    destruct Hr as (h & i & d & fob_inr & qty & dbk & rod & descr & _ & _ & _ & _ & _ & _ & _ & _ & ->).
    reflexivity.
  - intros i Hi. unfold currency_of, field. rewrite Hi. reflexivity.
  - intros i v Hi. unfold currency_of, field. rewrite Hi. reflexivity.
Qed.

(** C9.  In every emitted row the column ["FOB Value as per LEO Ex. Rate
    in INR"] holds the very value of ["FOB Value as per SB in INR"] (the
    rounded normalised FOB value of the item) and ["LEO Date Exchange Rate
    (in FC)"] the very value of ["Custom Exchange Rate (in FC)"] (the
    normalised rate of the invoice): nothing is computed for the LEO
    date. *)
Theorem C9_leo_columns_repeat_the_sb_columns (hierarchical_data : value)
  (rows : list row) :
  flatten_to_excel_rows str_of hierarchical_data = Ok rows ->
  Forall
    (fun r =>
       exists inv item ex_rate fob_inr,
         In inv (invoices_of hierarchical_data)
         /\ In item (items_of inv)
         /\ clean_number str_of (rate_field inv) = Ok ex_rate
         /\ clean_number str_of (fob_field item) = Ok fob_inr
         /\ lookup "FOB Value as per SB in INR" r = Some (VFloat (round2 fob_inr))
         /\ lookup "FOB Value as per LEO Ex. Rate in INR" r
            = lookup "FOB Value as per SB in INR" r
         /\ lookup "Custom Exchange Rate (in FC)" r = Some (VFloat ex_rate)
         /\ lookup "LEO Date Exchange Rate (in FC)" r
            = lookup "Custom Exchange Rate (in FC)" r)
    rows.
Proof.
  intro H. apply flatten_emits in H.
  apply (emits_rows _ _ _ H).
  intros inv item ex_rate r Hinv Hitem Hrate Hr.
  apply excel_row_shape in Hr.
  destruct Hr as (h & i & d & fob_inr & qty & dbk & rod & descr
                  & _ & _ & -> & Hfob & _ & _ & _ & _ & ->).
  exists inv, (VDict d), ex_rate, fob_inr.
  repeat split; first [assumption | reflexivity].
Qed.

(** ** The flattener: guarded divisions and missing keys *)

(** C4.  The flattener never raises [ZeroDivisionError], and both
    divisions are guarded.  Row by row, with [ex_rate] the normalised rate
    of the row's own invoice (the row shows it under ["Custom Exchange
    Rate (in FC)"]), [fob_inr] the normalised FOB value of the row's own
    item and [dbk_amt], [rodtep_amt] its two normalised receivables: the
    foreign-currency value is the rounded quotient when [ex_rate] is
    greater than zero and the integer 0 otherwise (so when it is 0),
    whatever [fob_inr]; each percentage is the formatted quotient when
    [fob_inr] is greater than zero and ["0.00"] otherwise (so when it is
    0), whatever the two receivables. *)
Theorem C4_flatten_is_division_safe (hierarchical_data : value) :
  flatten_to_excel_rows str_of hierarchical_data <> Raise ZeroDivisionError
  /\ (forall x, is_zero x = true -> gt_zero x = false)
  /\ (forall rows,
        flatten_to_excel_rows str_of hierarchical_data = Ok rows ->
        Forall2
          (fun source r =>
             exists ex_rate fob_inr dbk_amt rodtep_amt,
               clean_number str_of (rate_field (fst source)) = Ok ex_rate
               /\ clean_number str_of (fob_field (snd source)) = Ok fob_inr
               /\ clean_number str_of (drawback_field (snd source)) = Ok dbk_amt
               /\ clean_number str_of (rodtep_field (snd source)) = Ok rodtep_amt
               /\ lookup "Custom Exchange Rate (in FC)" r = Some (VFloat ex_rate)
               /\ lookup "FOB Value Declared by Us (S/B) in FC" r
                  = Some (if gt_zero ex_rate
                          then VFloat (round2 (SFdiv prec emax fob_inr ex_rate))
                          else VInt 0)
               /\ lookup "DBK %" r
                  = Some (VStr (if gt_zero fob_inr
                                then format_2f
                                       (times_100 (SFdiv prec emax dbk_amt fob_inr))
                                else "0.00"))
               /\ lookup "RoDTEP %" r
                  = Some (VStr (if gt_zero fob_inr
                                then format_2f
                                       (times_100 (SFdiv prec emax rodtep_amt fob_inr))
                                else "0.00"))
               /\ (gt_zero ex_rate = false ->
                   lookup "FOB Value Declared by Us (S/B) in FC" r = Some (VInt 0))
               /\ (gt_zero fob_inr = false ->
                   lookup "DBK %" r = Some (VStr "0.00")
                   /\ lookup "RoDTEP %" r = Some (VStr "0.00")))
          (row_sources hierarchical_data) rows).
Proof.
  split; [| split].
  - intro H. apply flatten_raise in H.
    destruct H as [H | [H | H]]; discriminate H.
  - exact zero_not_gt_zero.
  - intros rows H. apply flatten_emits in H.
    apply (emits_sources _ _ _ H).
    intros inv item ex_rate r Hrate Hr.
    apply excel_row_shape in Hr.
    destruct Hr as (h & i & d & fob_inr & qty & dbk & rod & descr
                    & _ & _ & -> & Hfob & _ & Hdbk & Hrod & _ & ->).
    exists ex_rate, fob_inr, dbk, rod. cbn [fst snd].
    split; [exact Hrate |]. split; [exact Hfob |].
    split; [exact Hdbk |]. split; [exact Hrod |].
    split; [reflexivity |].
    split; [cbn; destruct (gt_zero ex_rate); reflexivity |].
    split; [reflexivity |]. split; [reflexivity |].
    split.
    + intro Hz. cbn. rewrite Hz. reflexivity.
    + intro Hz. cbn. rewrite Hz. split; reflexivity.
Qed.

(** C10 (as amended).  Missing keys do not make the flattener fail.  A dictionary
    without ["invoices"] gives the empty list of rows.  A dictionary
    without ["shipping_bill_header"] is flattened exactly as one with an
    empty header.  In every emitted row each header column holds what the
    header has under its key and the empty text when the key is missing,
    so all six are empty when the header itself is missing.  And the
    flattener returns on every well-shaped hierarchy, whichever of its
    keys are missing. *)
Theorem C10_missing_keys_do_not_fail (d : dict) :
  (lookup "invoices" d = None -> flatten_to_excel_rows str_of (VDict d) = Ok [])
  /\ (lookup "shipping_bill_header" d = None ->
      header_of (VDict d) = VDict []
      /\ flatten_to_excel_rows str_of (VDict d)
         = flatten_to_excel_rows str_of
             (VDict (("shipping_bill_header", VDict []) :: d)))
  /\ (forall rows h,
        flatten_to_excel_rows str_of (VDict d) = Ok rows ->
        header_of (VDict d) = VDict h ->
        forall col key,
          In (col, key) header_columns ->
          Forall
            (fun r =>
               lookup col r = Some (field h key (VStr ""))
               /\ (lookup key h = None -> lookup col r = Some (VStr "")))
            rows)
  /\ (hierarchy_ok (VDict d) = true ->
      exists rows, flatten_to_excel_rows str_of (VDict d) = Ok rows).
Proof.
  split; [| split; [| split]].
  - intro Hinv. unfold flatten_to_excel_rows, get, field. rewrite Hinv. reflexivity.
  - intro Hh. split.
    + unfold header_of, field. rewrite Hh. reflexivity.
    + unfold flatten_to_excel_rows, get, field. rewrite Hh. reflexivity.
  - intros rows h H Hheader col key Hin.
    apply flatten_emits in H.
    apply (emits_rows _ _ _ H).
    intros inv item ex_rate r _ _ _ Hr.
    apply excel_row_shape in Hr.
    destruct Hr as (h' & i & d' & fob_inr & qty & dbk & rod & descr
                    & Hh' & _ & _ & _ & _ & _ & _ & _ & ->).
    assert (h' = h) by congruence. subst h'.
    match goal with
    | |- ?lhs = ?rhs /\ _ => assert (Hcol : lhs = rhs)
    end.
    { simpl in Hin.
      repeat (destruct Hin as [Hin | Hin];
              [injection Hin as <- <-; reflexivity |]).
      contradiction Hin. }
    split; [exact Hcol |].
    intro Hkey. rewrite Hcol. unfold field. rewrite Hkey. reflexivity.
  - intro Hok. destruct (rows_in_order_total _ Hok) as (rows & H).
    exists rows. rewrite flatten_is_rows_in_order. exact H.
Qed.

(** ** The normaliser *)


(** C8.  The three values of the specification: ["₹1,234.50"] gives the
    float that is exactly 1234.5, [None] gives +0.0 and ["N/A"] gives
    +0.0. *)
Theorem C8_clean_number_examples :
  (exists x,
      clean_number str_of (VStr "₹1,234.50") = Ok x /\ exactly x 1234.5)
  /\ clean_number str_of VNone = Ok pos_zero
  /\ clean_number str_of (VStr "N/A") = Ok pos_zero
  /\ exactly pos_zero 0.
Proof.
  split; [| repeat split].
  eexists. split; vm_compute; reflexivity.
Qed.

(** C5.  Scenario 1: for one invoice at rate 83.0 in USD with one item of
    FOB value 830000, quantity 100, drawback 8300 and RoDTEP 4150, the
    flattener emits exactly one row, whose foreign-currency value is the
    float 10000.0, whose ["DBK %"] is the text ["1.00"], whose
    ["RoDTEP %"] is the text ["0.50"] and whose ["RoDTEP Y/N"] is
    ["Yes"]. *)
Theorem C5_scenario_1_row :
  exists r,
    flatten_to_excel_rows str_of scenario_1 = Ok [r]
    /\ lookup "FOB Value Declared by Us (S/B) in FC" r
       = Some (VFloat (float_of_Z 10000))
    /\ exactly (float_of_Z 10000) 10000
    /\ lookup "DBK %" r = Some (VStr "1.00")
    /\ lookup "RoDTEP %" r = Some (VStr "0.50")
    /\ lookup "RoDTEP Y/N" r = Some (VStr "Yes")
    /\ lookup "Currency of Export" r = Some (VStr "USD")
    /\ lookup "Custom Exchange Rate (in FC)" r = Some (VFloat (float_of_Z 83))
    /\ lookup "Qty" r = Some (VFloat (float_of_Z 100)).
Proof.
  eexists. split; [vm_compute; reflexivity |].
  repeat split; vm_compute; reflexivity.
Qed.

(** ** The record assembly *)

Lemma mem_In (c : string) (l : list string) : mem c l = true <-> In c l.
Proof.
  unfold mem. rewrite existsb_exists. split.
  - intros (k & Hk & E). apply String.eqb_eq in E. subst k. exact Hk.
  - intro H. exists c. split; [exact H | apply String.eqb_refl].
Qed.

Lemma has_key_In (c : string) (r : row) : has_key c r = true <-> In c (map fst r).
Proof.
  unfold has_key. induction r as [| [k v] r' IH]; simpl.
  - split; [discriminate | contradiction].
  - destruct (String.eqb c k) eqn:E.
    + apply String.eqb_eq in E. subst k. split; auto.
    + rewrite IH. split; [auto |].
      intros [H | H]; [| exact H].
      subst k. rewrite String.eqb_refl in E. discriminate E.
Qed.

Lemma add_key_In (c : string) (seen : list string) (k : string) :
  In c (add_key seen k) <-> In c seen \/ k = c.
Proof.
  unfold add_key. destruct (mem k seen) eqn:E.
  - apply mem_In in E. split; [auto |]. intros [H | <-]; assumption.
  - rewrite in_app_iff. simpl. tauto.
Qed.

Lemma fold_add_key_In (c : string) (keys : list string) :
  forall seen, In c (fold_left add_key keys seen) <-> In c seen \/ In c keys.
Proof.
  induction keys as [| k keys' IH]; intro seen; simpl.
  - tauto.
  - rewrite IH, add_key_In. tauto.
Qed.

Lemma data_frame_columns_In (c : string) (rows : list row) :
  forall seen,
    In c (fold_left add_keys rows seen)
    <-> In c seen \/ exists r, In r rows /\ has_key c r = true.
Proof.
  induction rows as [| r rows' IH]; intro seen; simpl.
  - split; [auto | intros [H | (r & [] & _)]; exact H].
  - rewrite IH. unfold add_keys. rewrite fold_add_key_In, <- has_key_In. split.
    + intros [[H | H] | (r' & Hr' & Hk)]; eauto.
    + intros [H | (r' & [<- | Hr'] & Hk)]; eauto.
Qed.

Lemma cell_map (f : string -> option value) (cols : list string) (c : string) :
  In c cols -> cell cols (map f cols) c = f c.
Proof.
  induction cols as [| k cols' IH]; simpl; [contradiction |].
  destruct (String.eqb c k) eqn:E.
  - apply String.eqb_eq in E. subst k. reflexivity.
  - intros [H | H]; [| apply IH; exact H].
    subst k. rewrite String.eqb_refl in E. discriminate E.
Qed.

(** The projection never raises: it keeps, in canonical order, the
    canonical columns the data have, with the cells the frame holds
    there. *)
Lemma project_columns_ok (all_data : list row) :
  project_columns stored all_data
  = Ok {| columns :=
            filter (fun c => mem c (columns (data_frame stored all_data)))
                   FINAL_COLUMNS;
          records :=
            map (fun r =>
                   map (fun c => stored (map (lookup c) all_data) (lookup c r))
                       (filter (fun c => mem c (columns (data_frame stored all_data)))
                               FINAL_COLUMNS))
                all_data |}.
Proof.
  unfold project_columns, select.
  set (cols := columns (data_frame stored all_data)).
  set (labels := filter (fun c => mem c cols) FINAL_COLUMNS).
  assert (Hlabels : forall c, In c labels -> In c cols).
  { intros c Hc. apply filter_In in Hc. apply mem_In. apply Hc. }
  replace (forallb (fun c => mem c cols) labels) with true.
  - f_equal. f_equal. unfold data_frame. cbn [records]. rewrite map_map.
    apply map_ext. intro r. apply map_ext_in. intros c Hc.
    apply (cell_map (fun c => stored (map (lookup c) all_data) (lookup c r))).
    apply Hlabels. exact Hc.
  - symmetry. apply forallb_forall. intros c Hc. apply mem_In. apply Hlabels. exact Hc.
Qed.

Lemma NoDup_FINAL_COLUMNS : NoDup FINAL_COLUMNS.
Proof.
  unfold FINAL_COLUMNS.
  repeat (constructor; [simpl; intuition discriminate |]).
  constructor.
Qed.

(** C7 (as amended).  The canonical list has 27 columns, all distinct.
    The projection of the accumulated rows never fails; its columns are
    the canonical columns that at least one row has, in canonical order:
    a field outside the canonical list is dropped and a canonical column
    no row has is left out; every record holds, under each retained
    column, what the data frame stores for what its row has there. *)
Theorem C7_projection_on_canonical_columns (all_data : list row) :
  List.length FINAL_COLUMNS = 27%nat
  /\ NoDup FINAL_COLUMNS
  /\ exists d,
       project_columns stored all_data = Ok d
       /\ columns d = filter (fun c => existsb (has_key c) all_data) FINAL_COLUMNS
       /\ (forall c,
             In c (columns d)
             <-> In c FINAL_COLUMNS /\ exists r, In r all_data /\ has_key c r = true)
       /\ records d
          = map (fun r =>
                   map (fun c => stored (map (lookup c) all_data) (lookup c r))
                       (columns d))
                all_data.
Proof.
  split; [reflexivity |]. split; [exact NoDup_FINAL_COLUMNS |].
  eexists. split; [apply project_columns_ok |]. cbn [columns records].
  assert (Hmem : forall c,
             mem c (columns (data_frame stored all_data)) = true
             <-> exists r, In r all_data /\ has_key c r = true).
  { intro c. rewrite mem_In. unfold data_frame. cbn [columns].
    rewrite data_frame_columns_In. simpl. tauto. }
  split; [| split].
  - apply filter_ext. intro c. apply Bool.eq_iff_eq_true.
    rewrite Hmem, existsb_exists. reflexivity.
  - intro c. rewrite filter_In, Hmem. reflexivity.
  - reflexivity.
Qed.

Lemma Forall_concat {A : Type} (P : A -> Prop) (xss : list (list A)) :
  Forall (Forall P) xss -> Forall P (List.concat xss).
Proof.
  induction 1 as [| xs xss' Hxs _ IH]; simpl.
  - constructor.
  - apply Forall_app. split; assumption.
Qed.

(** The keys of an emitted row are the canonical columns, in their order. *)
Lemma batch_rows_keys (uploaded_files : list uploaded_file) (all_data : list row) :
  batch_rows str_of uploaded_files = Ok all_data ->
  Forall (fun r => map fst r = FINAL_COLUMNS) all_data.
Proof.
  unfold batch_rows. intro H. bind_inv H. injection H as <-.
  apply Forall_concat. apply traverse_ok in E.
  apply (Forall2_Forall_in _ _ _ _ E).
  intros f rows _ Hf. unfold file_rows in Hf.
  destruct (truthy (VStr (extracted_text f)) && truthy (hierarchical_json f)).
  - apply rows_in_order_emits in Hf.
    apply (emits_rows _ _ _ Hf).
    intros inv item ex_rate r _ _ _ Hr.
    apply excel_row_shape in Hr.
    destruct Hr as (h & i & d & fob_inr & qty & dbk & rod & descr
                    & _ & _ & _ & _ & _ & _ & _ & _ & ->).
    reflexivity.
  - injection Hf as <-. constructor.
Qed.

Lemma data_frame_canonical (all_data : list row) :
  all_data <> [] ->
  Forall (fun r => map fst r = FINAL_COLUMNS) all_data ->
  columns (data_frame stored all_data) = FINAL_COLUMNS.
Proof.
  intros Hne Hkeys. unfold data_frame. cbn [columns].
  destruct Hkeys as [| r rest Hr Hrest]; [contradiction Hne; reflexivity |].
  cbn [fold_left]. unfold add_keys at 2. rewrite Hr.
  replace (fold_left add_key FINAL_COLUMNS []) with FINAL_COLUMNS
    by (vm_compute; reflexivity).
  clear Hne Hr r. induction Hrest as [| r rest' Hr _ IH]; cbn [fold_left].
  - reflexivity.
  - unfold add_keys at 2. rewrite Hr.
    replace (fold_left add_key FINAL_COLUMNS FINAL_COLUMNS) with FINAL_COLUMNS
      by (vm_compute; reflexivity).
    exact IH.
Qed.

Lemma number_records (all_data rows : list row) :
  forall k,
    zip_with (fun rec v => set_cell FINAL_COLUMNS rec "Sr. No." (Some v))
             (map (fun r =>
                     map (fun c => stored (map (lookup c) all_data) (lookup c r))
                         FINAL_COLUMNS)
                  rows)
             (map (fun i => VInt (Z.of_nat i)) (seq k (List.length rows)))
    = numbered_from stored all_data (Z.of_nat k) rows.
Proof.
  induction rows as [| r rest IH]; intro k.
  - reflexivity.
  - cbn [List.length seq map zip_with numbered_from]. f_equal.
    rewrite IH. f_equal. lia.
Qed.


(** The serial numbers of the numbered records: [k], [k + 1], ... *)
Lemma numbered_from_serials (all_data rows : list row) :
  forall k,
    map (fun rec => cell FINAL_COLUMNS rec "Sr. No.")
        (numbered_from stored all_data (Z.of_nat k) rows)
    = map (fun i => Some (VInt (Z.of_nat i))) (seq k (List.length rows)).
Proof.
  induction rows as [| r rest IH]; intro k; [reflexivity |].
  cbn [numbered_from List.length seq].
  rewrite !(map_cons _ _ _).
  replace (Z.of_nat k + 1) with (Z.of_nat (S k)) by lia.
  rewrite IH. reflexivity.
Qed.


End Properties.

(** ** The properties at concrete documents *)



(** C3, the claim as stated fails: a currency that is present and empty is
    emitted empty, where the specification has ["USD"]. *)
Lemma C3_counterexample :
  claimed_currency invoice_with_empty_currency = VStr "USD"
  /\ exists r,
       (forall str_of,
           flatten_to_excel_rows str_of document_with_empty_currency = Ok [r])
       /\ lookup "Currency of Export" r = Some (VStr "")
       /\ lookup "Currency of Export" r
          <> Some (claimed_currency invoice_with_empty_currency).
Proof.
  split; [reflexivity |].
  eexists. split; [intro str_of; vm_compute; reflexivity |].
  split; [reflexivity | discriminate].
Qed.

(** C3 as amended, at scenario 1: the invoice's currency is emitted. *)
Lemma C3_witness :
  exists rows,
    (forall str_of, flatten_to_excel_rows str_of scenario_1 = Ok rows)
    /\ map (lookup "Currency of Export") rows = [Some (VStr "USD")].
Proof.
  eexists. split; [intro str_of; vm_compute; reflexivity |].
  apply (proj1 (C3_currency_defaults_on_missing_key (fun _ => "") scenario_1 _
                  eq_refl)).
Defined.

(** C9 at scenario 1. *)
Lemma C9_witness :
  exists r,
    (forall str_of, flatten_to_excel_rows str_of scenario_1 = Ok [r])
    /\ lookup "FOB Value as per LEO Ex. Rate in INR" r
       = lookup "FOB Value as per SB in INR" r
    /\ lookup "LEO Date Exchange Rate (in FC)" r
       = lookup "Custom Exchange Rate (in FC)" r.
Proof.
  eexists. split; [intro str_of; vm_compute; reflexivity |].
  pose proof (C9_leo_columns_repeat_the_sb_columns (fun _ => "") scenario_1 _
                eq_refl) as H.
  apply Forall_inv in H.
  destruct H as (inv & item & ex_rate & fob_inr & _ & _ & _ & _ & _ & H1 & _ & H2).
  split; [exact H1 | exact H2].
Defined.

(** C4 at a document whose rate and FOB value normalise to 0 while both
    receivables are positive. *)
Lemma C4_witness :
  exists r,
    (forall str_of,
        flatten_to_excel_rows str_of document_with_zero_amounts = Ok [r])
    /\ lookup "Custom Exchange Rate (in FC)" r = Some (VFloat pos_zero)
    /\ lookup "FOB Value Declared by Us (S/B) in FC" r = Some (VInt 0)
    /\ lookup "DBK %" r = Some (VStr "0.00")
    /\ lookup "RoDTEP %" r = Some (VStr "0.00").
Proof.
  eexists. split; [intro str_of; vm_compute; reflexivity |].
  split; [reflexivity |].
  pose proof (proj2 (proj2 (C4_flatten_is_division_safe (fun _ => "")
                              document_with_zero_amounts)) _ eq_refl) as H.
  vm_compute row_sources in H.
  apply Forall2_head in H.
  destruct H as (ex_rate & fob_inr & dbk_amt & rodtep_amt
                    & Hrate & Hfob & _ & _ & _ & _ & _ & _ & Hfc & Hpct).
  vm_compute in Hrate. injection Hrate as <-.
  vm_compute in Hfob. injection Hfob as <-.
  split; [apply Hfc; reflexivity | apply Hpct; reflexivity].
Defined.

(** C10 as amended, at the empty dictionary and at a document without
    header. *)
Lemma C10_witness :
  lookup "invoices" [] = None
  /\ lookup "shipping_bill_header" zero_amounts_entries = None
  /\ (forall str_of, flatten_to_excel_rows str_of (VDict []) = Ok [])
  /\ exists r,
       (forall str_of,
           flatten_to_excel_rows str_of (VDict zero_amounts_entries) = Ok [r])
       /\ lookup "SB NO." r = Some (VStr "")
       /\ lookup "Customer Name" r = Some (VStr "").
Proof.
  split; [reflexivity |]. split; [reflexivity |].
  split.
  - intro str_of. apply (proj1 (C10_missing_keys_do_not_fail str_of [])).
    reflexivity.
  - eexists. split; [intro str_of; vm_compute; reflexivity |].
    pose proof (C10_missing_keys_do_not_fail (fun _ => "") zero_amounts_entries)
      as (_ & Hh & Hrows & _).
    destruct (Hh eq_refl) as [Hheader _].
    split.
    + pose proof (Hrows _ [] eq_refl Hheader "SB NO." "SB NO."
                    (or_introl eq_refl)) as H.
      apply Forall_inv in H. apply (proj2 H). reflexivity.
    + pose proof (Hrows _ [] eq_refl Hheader "Customer Name" "CUSTOMER NAME"
                    (or_intror (or_intror (or_intror (or_introl eq_refl))))) as H.
      apply Forall_inv in H. apply (proj2 H). reflexivity.
Defined.

(** C10, the claim as stated fails: the flattener is not total on every
    dictionary.  [None] under ["invoices"] raises [TypeError], and [None]
    under ["shipping_bill_header"] raises [AttributeError] at the first
    item. *)
Lemma C10_counterexample :
  (forall str_of,
      flatten_to_excel_rows str_of document_with_null_invoices = Raise TypeError)
  /\ (forall str_of,
        flatten_to_excel_rows str_of document_with_null_header
        = Raise AttributeError).
Proof. split; intro str_of; reflexivity. Qed.



(** C7, the claim as stated fails on its count: the canonical list has 27
    columns, not 26. *)
Lemma C7_counterexample : List.length FINAL_COLUMNS <> 26%nat.
Proof. discriminate. Qed.

(** The projection at work: ["Remarks"] is dropped, the canonical columns
    no row has are left out, and the three that remain are in canonical
    order; with every value stored as it is, a cell is missing where a
    row lacks the key. *)
Example project_loose_rows :
  (forall stored,
      exists d,
        project_columns stored loose_rows = Ok d
        /\ columns d = ["SB NO."; "Qty"; "Unit"])
  /\ project_columns (fun _ v => v) loose_rows
     = Ok {| columns := ["SB NO."; "Qty"; "Unit"];
             records := [ [Some (VStr "1"); Some (VInt 1); None];
                          [None; Some (VInt 2); Some (VStr "NOS")] ] |}.
Proof.
  split; [| reflexivity].
  intro stored. eexists. split; reflexivity.
Qed.


(** * Further properties of the program *)

(** ** The normaliser on texts *)

Lemma count_if_app (p : ascii -> bool) (a b : string) :
  count_if p (a ++ b)%string = (count_if p a + count_if p b)%nat.
Proof. induction a as [| c a' IH]; simpl; [reflexivity | rewrite IH; lia]. Qed.

Lemma count_if_le_length (p : ascii -> bool) (s : string) :
  (count_if p s <= String.length s)%nat.
Proof. induction s as [| c r IH]; simpl; [lia | destruct (p c); lia]. Qed.

(** In a text made of the characters [p], no character is a [q] when the
    two classes are disjoint. *)
Lemma count_if_disjoint (p q : ascii -> bool) (s : string) :
  (forall c, p c = true -> q c = false) ->
  count_if p s = String.length s ->
  count_if q s = 0%nat.
Proof.
  intro Hpq. induction s as [| c r IH]; simpl; [reflexivity |].
  pose proof (count_if_le_length p r) as Hle.
  destruct (p c) eqn:Hc; [| lia].
  rewrite (Hpq c Hc). intro H. apply IH. lia.
Qed.

Lemma digit_is_no_point (c : ascii) : is_digit c = true -> is_point c = false.
Proof.
  intro H. destruct (is_point c) eqn:E; [| reflexivity].
  apply Ascii.eqb_eq in E. subst c. discriminate H.
Qed.

Lemma digit_is_no_minus (c : ascii) : is_digit c = true -> is_minus c = false.
Proof.
  intro H. destruct (is_minus c) eqn:E; [| reflexivity].
  apply Ascii.eqb_eq in E. subst c. discriminate H.
Qed.

Lemma read_digits_spec (s : string) :
  forall acc n v n' rest,
    read_digits s acc n = (v, n', rest) ->
    exists ds,
      s = (ds ++ rest)%string
      /\ count_if is_digit ds = String.length ds
      /\ n' = (n + String.length ds)%nat.
Proof.
  induction s as [| c r IH]; intros acc n v n' rest H; simpl in H.
  - injection H as <- <- <-. exists "". simpl. repeat split. lia.
  - destruct (is_digit c) eqn:E.
    + apply IH in H. destruct H as (ds & -> & Hd & ->).
      exists (String c ds). simpl. rewrite E, Hd. repeat split. lia.
    + injection H as <- <- <-. exists "". simpl. repeat split. lia.
Qed.

Lemma sign_case (t : string) :
  match t with
  | String "-" rest => (true, rest)
  | _ => (false, t)
  end
  = match t with
    | String c rest => if is_minus c then (true, rest) else (false, t)
    | EmptyString => (false, t)
    end.
Proof. destruct t as [| [[] [] [] [] [] [] [] []] r]; reflexivity. Qed.

(** A text that parses after an optional sign: digits, at most one point,
    no minus sign. *)
Lemma unsigned_text_shape (neg : bool) (body : string) (f : float) :
  (let '(ip, ni, after_int) := read_digits body 0 0%nat in
   match after_int with
   | EmptyString =>
       if Nat.eqb ni 0 then Raise ValueError else Ok (nearest_ratio neg ip 1)
   | String "." frac =>
       let '(n, nf, after_frac) := read_digits frac ip 0%nat in
       match after_frac with
       | EmptyString =>
           if Nat.eqb (ni + nf) 0 then Raise ValueError
           else Ok (nearest_ratio neg n (Z.to_pos (10 ^ Z.of_nat nf)))
       | _ => Raise ValueError
       end
   | _ => Raise ValueError
   end) = Ok f ->
  (1 <= count_if is_digit body)%nat
  /\ (count_if is_point body <= 1)%nat
  /\ count_if is_minus body = 0%nat.
Proof.
  destruct (read_digits body 0 0%nat) as [[ip ni] after_int] eqn:R1.
  apply read_digits_spec in R1. destruct R1 as (ds1 & -> & Hd1 & ->).
  pose proof (count_if_disjoint _ _ _ digit_is_no_point Hd1) as Hp1.
  pose proof (count_if_disjoint _ _ _ digit_is_no_minus Hd1) as Hm1.
  destruct after_int as [| c frac].
  - destruct (Nat.eqb (0 + String.length ds1) 0) eqn:E; [discriminate |].
    apply Nat.eqb_neq in E. intros _.
    rewrite !count_if_app, Hd1, Hp1, Hm1. simpl. lia.
  - destruct (is_point c) eqn:Ep.
    + apply Ascii.eqb_eq in Ep. subst c.
      destruct (read_digits frac ip 0%nat) as [[n nf] after_frac] eqn:R2.
      apply read_digits_spec in R2. destruct R2 as (ds2 & -> & Hd2 & ->).
      pose proof (count_if_disjoint _ _ _ digit_is_no_point Hd2) as Hp2.
      pose proof (count_if_disjoint _ _ _ digit_is_no_minus Hd2) as Hm2.
      destruct after_frac; [| discriminate].
      destruct (Nat.eqb (0 + String.length ds1 + (0 + String.length ds2)) 0) eqn:E;
        [discriminate |].
      apply Nat.eqb_neq in E. intros _.
      rewrite !count_if_app. cbn [count_if].
      rewrite !count_if_app, Hd1, Hp1, Hm1, Hd2, Hp2, Hm2. simpl. lia.
    + destruct c as [[] [] [] [] [] [] [] []]; try discriminate; discriminate Ep.
Qed.

(** What a text that parses looks like: it has a digit, at most one point,
    and no minus sign after its first character. *)
Lemma float_of_text_shape (t : string) (f : float) :
  float_of_text t = Ok f ->
  (1 <= count_if is_digit t)%nat
  /\ (count_if is_point t <= 1)%nat
  /\ count_if is_minus (behead t) = 0%nat.
Proof.
  unfold float_of_text. rewrite sign_case.
  destruct t as [| c r]; [discriminate |].
  destruct (is_minus c) eqn:Em.
  - intro H. apply unsigned_text_shape in H. destruct H as (Hd & Hp & Hm).
    apply Ascii.eqb_eq in Em. subst c. simpl. repeat split; lia.
  - intro H. apply unsigned_text_shape in H. destruct H as (Hd & Hp & Hm).
    repeat split; try assumption.
    simpl in Hm. rewrite Em in Hm. simpl. lia.
Qed.

(** The substitution keeps every character of a class it keeps. *)
Lemma count_if_re_sub (p : ascii -> bool) (s : string) :
  (forall c, p c = true -> numeric_char c = true) ->
  count_if p (re_sub_non_numeric s) = count_if p s.
Proof.
  intro Hp. induction s as [| c r IH]; simpl; [reflexivity |].
  destruct (numeric_char c) eqn:Hc; simpl; rewrite IH; [reflexivity |].
  destruct (p c) eqn:Hpc; [| reflexivity].
  rewrite (Hp c Hpc) in Hc. discriminate Hc.
Qed.

Lemma re_sub_insert (a b : string) (c : ascii) :
  numeric_char c = false ->
  re_sub_non_numeric (a ++ String c b) = re_sub_non_numeric (a ++ b).
Proof.
  intro Hc. induction a as [| x a' IH]; simpl.
  - rewrite Hc. reflexivity.
  - rewrite IH. reflexivity.
Qed.

Section NormaliserOnTexts.

Variable str_of : value -> string.

(** X1.  In a text of ASCII characters, a character that is not a digit,
    a point or a minus sign never changes the value, wherever it stands:
    a dollar sign, a thousands separator, a blank, a letter. *)
Theorem X1_clean_number_ignores_other_characters (a b : string) (c : ascii) :
  is_ascii a = true ->
  is_ascii b = true ->
  ascii_char c = true ->
  numeric_char c = false ->
  clean_number str_of (VStr (a ++ String c b))
  = clean_number str_of (VStr (a ++ b)).
Proof.
  intros _ _ _ Hc. unfold clean_number.
  assert (Hne : truthy (VStr (a ++ String c b)) = true)
    by (destruct a; reflexivity).
  rewrite Hne. cbn [negb str]. rewrite (re_sub_insert _ _ _ Hc).
  destruct (a ++ b)%string as [| x r] eqn:Hab; reflexivity.
Qed.

(** X2.  A text of ASCII characters gives +0.0 as soon as its numeric
    characters are not one number: when it has no digit, when it has two
    points or more, or when a minus sign follows another kept character.
    So ["Rs. 1,234.50"] (the point of the abbreviation is kept) and a
    date such as ["10-MAY-25"] both normalise to 0.0. *)
Theorem X2_clean_number_of_a_malformed_text (s : string) :
  is_ascii s = true ->
  count_if is_digit s = 0%nat
  \/ (2 <= count_if is_point s)%nat
  \/ (1 <= count_if is_minus (behead (re_sub_non_numeric s)))%nat ->
  clean_number str_of (VStr s) = Ok pos_zero.
Proof.
  intros _ H. unfold clean_number.
  destruct (truthy (VStr s)); cbn [negb]; [| reflexivity].
  cbn [str].
  destruct (float_of_text (re_sub_non_numeric s)) as [f | e] eqn:Hf;
    [| reflexivity].
  apply float_of_text_shape in Hf. destruct Hf as (Hd & Hp & Hm).
  rewrite (count_if_re_sub is_digit) in Hd
    by (intros c Hc; unfold numeric_char; rewrite Hc; reflexivity).
  rewrite (count_if_re_sub is_point) in Hp
    by (intros c Hc; unfold numeric_char; fold (is_point c); rewrite Hc;
        apply orb_true_iff; left; apply orb_true_r).
  lia.
Qed.

End NormaliserOnTexts.

Lemma X1_witness :
  is_ascii "1" = true
  /\ is_ascii "234" = true
  /\ ascii_char "," = true
  /\ numeric_char "," = false
  /\ (forall str_of,
        clean_number str_of (VStr "1,234") = clean_number str_of (VStr "1234")).
Proof.
  split; [reflexivity |]. split; [reflexivity |].
  split; [reflexivity |]. split; [reflexivity |].
  intro str_of.
  apply (X1_clean_number_ignores_other_characters str_of "1" "234" ",");
    reflexivity.
Defined.

Lemma X2_witness :
  is_ascii "Rs. 1,234.50" = true
  /\ is_ascii "10-MAY-25" = true
  /\ (2 <= count_if is_point "Rs. 1,234.50")%nat
  /\ (1 <= count_if is_minus (behead (re_sub_non_numeric "10-MAY-25")))%nat
  /\ (forall str_of, clean_number str_of (VStr "Rs. 1,234.50") = Ok pos_zero)
  /\ (forall str_of, clean_number str_of (VStr "10-MAY-25") = Ok pos_zero).
Proof.
  split; [reflexivity |]. split; [reflexivity |].
  split; [vm_compute; lia |]. split; [vm_compute; lia |].
  split; intro str_of; apply X2_clean_number_of_a_malformed_text.
  - reflexivity.
  - right. left. vm_compute. lia.
  - reflexivity.
  - right. right. vm_compute. lia.
Defined.

(** ** Rows, documents and batches *)

Lemma traverse_app {A B : Type} (f : A -> result B) (xs xs' : list A)
  (ys ys' : list B) :
  traverse f xs = Ok ys ->
  traverse f xs' = Ok ys' ->
  traverse f (xs ++ xs') = Ok (ys ++ ys').
Proof.
  revert ys. induction xs as [| x rest IH]; intros ys H H'; simpl in *.
  - injection H as <-. exact H'.
  - bind_inv H. bind_inv H. injection H as <-.
    rewrite E, (IH _ E0 H'). reflexivity.
Qed.

(** A traversal raises as soon as one element does. *)
Lemma traverse_aborts {A B : Type} (f : A -> result B) (xs : list A) (x : A)
  (e : exn) :
  In x xs -> f x = Raise e -> exists e', traverse f xs = Raise e'.
Proof.
  induction xs as [| y rest IH]; intros Hin Hx; [contradiction Hin |].
  simpl. destruct (f y) as [b | e1] eqn:Hy; simpl.
  - destruct Hin as [-> | Hin]; [congruence |].
    destruct (IH Hin Hx) as (e' & He'). exists e'. rewrite He'. reflexivity.
  - exists e1. reflexivity.
Qed.

Lemma numbered_from_app
  (stored : list (option value) -> option value -> option value)
  (all_data rows rows' : list row) :
  forall k,
    numbered_from stored all_data k (rows ++ rows')
    = numbered_from stored all_data k rows
        ++ numbered_from stored all_data (k + Z.of_nat (List.length rows)) rows'.
Proof.
  induction rows as [| r rest IH]; intro k.
  - simpl. f_equal. lia.
  - cbn [app numbered_from List.length]. f_equal.
    rewrite IH. f_equal. f_equal. lia.
Qed.

Section RowsAndBatches.

Variable str_of : value -> string.
Variable stored : list (option value) -> option value -> option value.

(** X3.  The kinds of value in an emitted row.  Its keys are the canonical
    columns in canonical order.  The quantity, the two rates, the two INR
    values, the two receivables and the balance are floats; the foreign
    currency value is a float or the integer 0; the serial number, the
    two description columns, the scheme, the two percentages and the
    yes/no flag are texts. *)
Theorem X3_kinds_of_value_in_a_row (hierarchical_data : value) (rows : list row) :
  flatten_to_excel_rows str_of hierarchical_data = Ok rows ->
  Forall
    (fun r =>
       map fst r = FINAL_COLUMNS
       /\ (forall c, In c float_columns -> exists x, lookup c r = Some (VFloat x))
       /\ (forall c, In c text_columns -> exists t, lookup c r = Some (VStr t))
       /\ (lookup "FOB Value Declared by Us (S/B) in FC" r = Some (VInt 0)
           \/ exists x,
                lookup "FOB Value Declared by Us (S/B) in FC" r = Some (VFloat x)))
    rows.
Proof.
  intro H. apply flatten_emits in H.
  apply (emits_rows _ _ _ _ H).
  intros inv item ex_rate r _ _ _ Hr.
  apply excel_row_shape in Hr.
  destruct Hr as (h & i & d & fob_inr & qty & dbk & rod & descr
                  & _ & _ & _ & _ & _ & _ & _ & _ & ->).
  split; [reflexivity |]. split; [| split].
  - intros c Hc. simpl in Hc.
    repeat (destruct Hc as [<- | Hc]; [eexists; reflexivity |]).
    contradiction Hc.
  - intros c Hc. simpl in Hc.
    repeat (destruct Hc as [<- | Hc]; [eexists; reflexivity |]).
    contradiction Hc.
  - cbn. destruct (gt_zero ex_rate); [right; eexists; reflexivity | left; reflexivity].
Qed.

(** X4.  What every emitted row holds whatever its item says: an empty
    serial number, the scheme ["DRAWBACK"] (the scheme code and name of
    the item are not read), one and the same text in ["Product Group"]
    and ["SB – Solar / Other Goods"], the receivable again as ["Balance
    RoDTEP"], and ["Yes"] or ["No"] according to whether the normalised
    RoDTEP receivable is greater than zero.  Row by row, the item is the
    row's own: its description is a text, and when that text is made of
    ASCII characters the two columns hold it without the blanks at its
    ends. *)
Theorem X4_constant_and_repeated_columns (hierarchical_data : value)
  (rows : list row) :
  flatten_to_excel_rows str_of hierarchical_data = Ok rows ->
  Forall2
    (fun source r =>
       exists text rodtep_amt,
         description_field (snd source) = VStr text
         /\ clean_number str_of (rodtep_field (snd source)) = Ok rodtep_amt
         /\ lookup "Sr. No." r = Some (VStr "")
         /\ lookup "Scheme (ADV/DFIA/Drawback)" r = Some (VStr "DRAWBACK")
         /\ lookup "SB – Solar / Other Goods" r = lookup "Product Group" r
         /\ (is_ascii text = true ->
             lookup "Product Group" r = Some (VStr (rstrip (lstrip text))))
         /\ lookup "RoDTEP Receivable" r = Some (VFloat (round2 rodtep_amt))
         /\ lookup "Balance RoDTEP" r = Some (VFloat (round2 rodtep_amt))
         /\ lookup "RoDTEP Y/N" r
            = Some (VStr (if gt_zero rodtep_amt then "Yes" else "No")))
    (row_sources hierarchical_data) rows.
Proof.
  intro H. apply flatten_emits in H.
  apply (emits_sources _ _ _ _ H).
  intros inv item ex_rate r _ Hr.
  apply excel_row_shape in Hr.
  destruct Hr as (h & i & d & fob_inr & qty & dbk & rod & descr
                  & _ & _ & -> & _ & _ & _ & Hrod & Hdescr & ->).
  cbn [snd description_field].
  destruct (field d "PRODUCT GROUP" (VStr "")) as [| | | | text | |];
    try discriminate Hdescr.
  cbn [strip] in Hdescr. injection Hdescr as <-.
  exists text, rod.
  repeat split; first [assumption | reflexivity].
Qed.

(** X5.  The exceptions that can leave the flattener: [AttributeError]
    (a value without [get] or [strip]), [TypeError] (a value that is not
    iterable) and [OverflowError] (an integer beyond the float range),
    never [KeyError], [ValueError] or [ZeroDivisionError]; and none on a
    well-shaped hierarchy. *)
Theorem X5_exceptions_of_the_flattener (hierarchical_data : value) (e : exn) :
  flatten_to_excel_rows str_of hierarchical_data = Raise e ->
  (e = AttributeError \/ e = TypeError \/ e = OverflowError)
  /\ hierarchy_ok hierarchical_data = false.
Proof.
  intro H. split; [apply (flatten_raise _ _ _ H) |].
  destruct (hierarchy_ok hierarchical_data) eqn:Hok; [| reflexivity].
  destruct (rows_in_order_total str_of _ Hok) as (rows & Hrows).
  rewrite flatten_is_rows_in_order in H. congruence.
Qed.

(** X6.  No state passes from one invoice to the next: the rows of a
    document whose invoices are [invs ++ invs'] are the rows for [invs]
    followed by the rows for [invs'], under the same header. *)
Theorem X6_rows_of_appended_invoices (h : value) (invs invs' : list value)
  (rows rows' : list row) :
  flatten_to_excel_rows str_of (document_of h invs) = Ok rows ->
  flatten_to_excel_rows str_of (document_of h invs') = Ok rows' ->
  flatten_to_excel_rows str_of (document_of h (invs ++ invs'))
  = Ok (rows ++ rows').
Proof.
  rewrite !flatten_is_rows_in_order. unfold rows_in_order, document_of.
  cbn [get bind]. unfold field. cbn [lookup String.eqb Ascii.eqb Bool.eqb].
  cbn [iter bind]. intros H H'.
  bind_inv H. injection H as <-. bind_inv H'. injection H' as <-.
  rewrite (traverse_app _ _ _ _ _ E E0). cbn [bind].
  rewrite concat_app. reflexivity.
Qed.

(** The dataset [process_files] stores for a batch that yields rows. *)
Lemma process_files_dataset (uploaded_files : list uploaded_file) (st : session)
  (all_data : list row) :
  batch_rows str_of uploaded_files = Ok all_data ->
  all_data <> [] ->
  process_files str_of stored true uploaded_files st
  = Ok {| df := {| columns := FINAL_COLUMNS;
                   records := numbered_from stored all_data 1 all_data |};
          show_dashboard := true |}.
Proof.
  intros Hrows Hne.
  pose proof (batch_rows_keys _ _ _ Hrows) as Hkeys.
  pose proof (data_frame_canonical stored _ Hne Hkeys) as Hcols.
  unfold process_files. cbn [negb].
  rewrite collect_is_batch_rows, Hrows. cbn [bind].
  destruct all_data as [| r rest]; [contradiction Hne; reflexivity |].
  rewrite project_columns_ok, Hcols. cbn [bind].
  replace (filter (fun c => mem c FINAL_COLUMNS) FINAL_COLUMNS) with FINAL_COLUMNS
    by (vm_compute; reflexivity).
  unfold number_rows, assign_column. cbn [columns records].
  replace (mem "Sr. No." FINAL_COLUMNS) with true by (vm_compute; reflexivity).
  unfold range_from_1. rewrite length_map, number_records. reflexivity.
Qed.

(** X7.  One document the flattener raises on makes the whole batch
    raise: [process_files] stores nothing, and the rows of the other
    documents are lost with it. *)
Theorem X7_a_failing_document_aborts_the_batch
  (uploaded_files : list uploaded_file) (st : session) (f : uploaded_file)
  (e : exn) :
  In f uploaded_files ->
  is_processed f = true ->
  flatten_to_excel_rows str_of (hierarchical_json f) = Raise e ->
  exists e', process_files str_of stored true uploaded_files st = Raise e'.
Proof.
  intros Hin Hf He.
  assert (Hfile : file_rows str_of f = Raise e).
  { unfold file_rows. unfold is_processed in Hf. rewrite Hf.
    rewrite <- flatten_is_rows_in_order. exact He. }
  destruct (traverse_aborts _ _ _ _ Hin Hfile) as (e' & He').
  exists e'. unfold process_files. cbn [negb].
  rewrite collect_is_batch_rows. unfold batch_rows. rewrite He'. reflexivity.
Qed.

(** X8.  A batch without rows changes nothing but the page: when every
    file is skipped (no text, or no extracted object) or is a well-shaped
    document without any item, [process_files] keeps the stored dataset
    and leaves [show_dashboard] false. *)
Theorem X8_a_batch_without_rows (uploaded_files : list uploaded_file)
  (st : session) :
  Forall
    (fun f =>
       is_processed f = false
       \/ (hierarchy_ok (hierarchical_json f) = true
           /\ item_total (hierarchical_json f) = 0%nat))
    uploaded_files ->
  process_files str_of stored true uploaded_files st
  = Ok {| df := df st; show_dashboard := false |}.
Proof.
  intro H.
  assert (Hrows : batch_rows str_of uploaded_files = Ok []).
  { unfold batch_rows.
    assert (Ht : traverse (file_rows str_of) uploaded_files
                 = Ok (map (fun _ => []) uploaded_files)).
    { induction H as [| f rest Hf _ IH]; simpl; [reflexivity |].
      assert (Hfile : file_rows str_of f = Ok []).
      { unfold file_rows. fold (is_processed f).
        destruct Hf as [-> | [Hok Hnone]]; [reflexivity |].
        destruct (is_processed f); [| reflexivity].
        destruct (rows_in_order_total str_of _ Hok) as (rows & Hrows).
        rewrite Hrows. f_equal.
        apply rows_in_order_emits in Hrows. apply emits_length in Hrows.
        rewrite Hnone in Hrows. destruct rows; [reflexivity | discriminate Hrows]. }
      rewrite Hfile, IH. reflexivity. }
    rewrite Ht. cbn [bind]. f_equal.
    clear. induction uploaded_files as [| f rest IH]; simpl; [reflexivity | exact IH]. }
  unfold process_files. cbn [negb].
  rewrite collect_is_batch_rows, Hrows. reflexivity.
Qed.

(** X9.  Batches compose: the rows of [files ++ files'] are the rows of
    [files] followed by those of [files'], and in the dataset the
    numbering of the second part continues that of the first.  The
    records are those of the two parts in order, numbered from 1 and from
    one more than the number of rows of the first part; each other cell
    is what pandas stores for its value in the column of the whole batch
    ([stored], on which nothing is assumed): the dataset of the appended
    batch is not claimed to be made of the datasets of its parts. *)
Theorem X9_dataset_of_an_appended_batch (files files' : list uploaded_file)
  (st : session) (rows rows' : list row) :
  batch_rows str_of files = Ok rows ->
  batch_rows str_of files' = Ok rows' ->
  rows ++ rows' <> [] ->
  batch_rows str_of (files ++ files') = Ok (rows ++ rows')
  /\ process_files str_of stored true (files ++ files') st
     = Ok {| df := {| columns := FINAL_COLUMNS;
                      records :=
                        numbered_from stored (rows ++ rows') 1 rows
                          ++ numbered_from stored (rows ++ rows')
                               (1 + Z.of_nat (List.length rows)) rows' |};
             show_dashboard := true |}
  /\ map (fun rec => cell FINAL_COLUMNS rec "Sr. No.")
         (numbered_from stored (rows ++ rows') 1 rows
            ++ numbered_from stored (rows ++ rows')
                 (1 + Z.of_nat (List.length rows)) rows')
     = map (fun i => Some (VInt (Z.of_nat i)))
           (seq 1 (List.length (rows ++ rows'))).
Proof.
  intros H H' Hne.
  assert (Hall : batch_rows str_of (files ++ files') = Ok (rows ++ rows')).
  { unfold batch_rows in *. bind_inv H. injection H as <-.
    bind_inv H'. injection H' as <-.
    rewrite (traverse_app _ _ _ _ _ E E0). cbn [bind].
    rewrite concat_app. reflexivity. }
  split; [exact Hall |].
  rewrite <- numbered_from_app.
  split; [apply (process_files_dataset _ st _ Hall Hne) |].
  apply (numbered_from_serials stored (rows ++ rows') (rows ++ rows') 1).
Qed.

End RowsAndBatches.

Lemma X3_witness :
  exists r,
    (forall str_of, flatten_to_excel_rows str_of scenario_1 = Ok [r])
    /\ map fst r = FINAL_COLUMNS
    /\ (exists x, lookup "Qty" r = Some (VFloat x))
    /\ (exists t, lookup "DBK %" r = Some (VStr t)).
Proof.
  eexists. split; [intro str_of; vm_compute; reflexivity |].
  pose proof (X3_kinds_of_value_in_a_row (fun _ => "") scenario_1 _ eq_refl) as H.
  apply Forall_inv in H. destruct H as (Hkeys & Hfloat & Htext & _).
  split; [exact Hkeys |]. split.
  - apply Hfloat. left. reflexivity.
  - apply Htext. do 4 right. left. reflexivity.
Defined.

Lemma X4_witness :
  exists r,
    (forall str_of, flatten_to_excel_rows str_of scenario_1 = Ok [r])
    /\ lookup "Scheme (ADV/DFIA/Drawback)" r = Some (VStr "DRAWBACK")
    /\ lookup "Product Group" r = Some (VStr "SOLAR MODULE")
    /\ lookup "SB – Solar / Other Goods" r = Some (VStr "SOLAR MODULE")
    /\ lookup "RoDTEP Y/N" r = Some (VStr "Yes").
Proof.
  eexists. split; [intro str_of; vm_compute; reflexivity |].
  pose proof (X4_constant_and_repeated_columns (fun _ => "") scenario_1 _ eq_refl)
    as H.
  vm_compute row_sources in H.
  apply Forall2_head in H.
  destruct H as (text & rod & Htext & Hrod
                    & _ & Hscheme & Hsb & Hpg & _ & _ & Hyn).
  vm_compute in Htext. injection Htext as <-.
  vm_compute in Hrod. injection Hrod as <-.
  specialize (Hpg eq_refl).
  split; [exact Hscheme |]. split; [exact Hpg |].
  split; [exact (eq_trans Hsb Hpg) | exact Hyn].
Defined.

Lemma X5_witness :
  (forall str_of,
      flatten_to_excel_rows str_of document_with_null_invoices = Raise TypeError)
  /\ hierarchy_ok document_with_null_invoices = false.
Proof.
  split; [intro str_of; reflexivity |].
  apply (proj2 (X5_exceptions_of_the_flattener (fun _ => "")
                  document_with_null_invoices TypeError eq_refl)).
Defined.

Lemma X6_witness :
  exists rows,
    (forall str_of,
        flatten_to_excel_rows str_of
          (document_of (VDict []) [invoice_with_empty_currency]) = Ok rows)
    /\ List.length rows = 1%nat
    /\ (forall str_of,
          flatten_to_excel_rows str_of
            (document_of (VDict [])
               ([invoice_with_empty_currency] ++ [invoice_with_empty_currency]))
          = Ok (rows ++ rows)).
Proof.
  eexists. split; [intro str_of; vm_compute; reflexivity |].
  split; [reflexivity |].
  intro str_of.
  apply (X6_rows_of_appended_invoices str_of); vm_compute; reflexivity.
Defined.

Lemma X7_witness :
  In {| extracted_text := "SHIPPING BILL 4471525";
        hierarchical_json := list_document |} batch_with_a_list
  /\ (forall str_of,
        flatten_to_excel_rows str_of list_document = Raise AttributeError)
  /\ (forall str_of st,
        exists e,
          process_files str_of (fun _ v => v) true batch_with_a_list st = Raise e).
Proof.
  split; [right; left; reflexivity |].
  split; [intro str_of; reflexivity |].
  intros str_of st.
  apply (X7_a_failing_document_aborts_the_batch str_of (fun _ v => v)
           batch_with_a_list st
           {| extracted_text := "SHIPPING BILL 4471525";
              hierarchical_json := list_document |} AttributeError).
  - right. left. reflexivity.
  - reflexivity.
  - reflexivity.
Defined.

Lemma X8_witness :
  forallb
    (fun f =>
       negb (is_processed f)
       || (hierarchy_ok (hierarchical_json f)
           && Nat.eqb (item_total (hierarchical_json f)) 0))
    batch_without_rows = true
  /\ (forall str_of stored st,
        process_files str_of stored true batch_without_rows st
        = Ok {| df := df st; show_dashboard := false |}).
Proof.
  split; [vm_compute; reflexivity |].
  intros str_of stored st. apply X8_a_batch_without_rows.
  unfold batch_without_rows.
  repeat (constructor; [first [left; vm_compute; reflexivity
                              | right; split; vm_compute; reflexivity] |]).
  constructor.
Defined.

Lemma X9_witness :
  exists rows rows',
    (forall str_of, batch_rows str_of three_files = Ok rows)
    /\ (forall str_of, batch_rows str_of batch_without_rows = Ok rows')
    /\ List.length rows = 2%nat
    /\ (forall str_of stored st,
          process_files str_of stored true (three_files ++ three_files) st
          = Ok {| df := {| columns := FINAL_COLUMNS;
                           records :=
                             numbered_from stored (rows ++ rows) 1 rows
                               ++ numbered_from stored (rows ++ rows) 3 rows |};
                  show_dashboard := true |}).
Proof.
  eexists. eexists.
  split; [intro str_of; vm_compute; reflexivity |].
  split; [intro str_of; vm_compute; reflexivity |].
  split; [reflexivity |].
  intros str_of stored st.
  apply (proj1 (proj2
           (X9_dataset_of_an_appended_batch
              str_of stored three_files three_files st _ _ eq_refl eq_refl
              ltac:(discriminate)))).
Defined.

(** ** The session *)

Section Session.

Variable str_of : value -> string.
Variable stored : list (option value) -> option value -> option value.

Lemma process_files_cases (llm : bool) (uploaded_files : list uploaded_file)
  (st st' : session) :
  process_files str_of stored llm uploaded_files st = Ok st' ->
  st' = st
  \/ st' = {| df := df st; show_dashboard := false |}
  \/ exists all_data,
       all_data <> []
       /\ st' = {| df := {| columns := FINAL_COLUMNS;
                            records := numbered_from stored all_data 1 all_data |};
                   show_dashboard := true |}.
Proof.
  destruct llm.
  - destruct (batch_rows str_of uploaded_files) as [all_data | e] eqn:Hrows.
    + destruct all_data as [| r rest].
      * unfold process_files. cbn [negb].
        rewrite collect_is_batch_rows, Hrows. cbn [bind].
        intro H. injection H as <-. right. left. reflexivity.
      * rewrite (process_files_dataset str_of stored _ st _ Hrows) by discriminate.
        intro H. injection H as <-. right. right.
        exists (r :: rest). split; [discriminate | reflexivity].
    + unfold process_files. cbn [negb].
      rewrite collect_is_batch_rows, Hrows. discriminate.
  - unfold process_files. cbn [negb]. intro H. injection H as <-.
    left. reflexivity.
Qed.

Lemma reachable_shape (st : session) :
  reachable str_of stored st ->
  st = initial_session
  \/ exists all_data,
       all_data <> []
       /\ st = {| df := {| columns := FINAL_COLUMNS;
                           records := numbered_from stored all_data 1 all_data |};
                  show_dashboard := true |}.
Proof.
  induction 1 as [| st st' llm files _ IH Hshow Hfiles Hrun | st _ _ _].
  - left. reflexivity.
  - destruct IH as [-> | (rows & _ & ->)]; [| discriminate Hshow].
    apply process_files_cases in Hrun.
    destruct Hrun as [-> | [-> | Hrun]]; [left; reflexivity .. | right; exact Hrun].
  - left. reflexivity.
Qed.

(** X10.  In every session the application can reach, the dashboard is
    shown exactly when the stored dataset is not empty: it never meets an
    empty dataset, and the upload page always starts from the empty one.
    When it is shown, the dataset has the canonical columns and at least
    one row, so the four columns the dashboard reads for its figures
    exist, each with one cell per row. *)
Theorem X10_dashboard_is_shown_with_rows_only (st : session) :
  reachable str_of stored st ->
  show_dashboard st = negb (df_empty (df st))
  /\ (show_dashboard st = false -> df st = empty_frame)
  /\ (show_dashboard st = true ->
      columns (df st) = FINAL_COLUMNS
      /\ records (df st) <> []
      /\ forall c,
           In c metric_columns ->
           exists cells,
             column (df st) c = Ok cells
             /\ List.length cells = List.length (records (df st))).
Proof.
  intro H. apply reachable_shape in H.
  destruct H as [-> | (rows & Hne & ->)].
  - split; [reflexivity |]. split; [reflexivity | discriminate].
  - destruct rows as [| r rest]; [contradiction Hne; reflexivity |].
    split; [reflexivity |]. split; [discriminate |].
    intros _. split; [reflexivity |]. split; [discriminate |].
    intros c Hc. unfold column. cbn [df columns records].
    replace (mem c FINAL_COLUMNS) with true.
    + eexists. split; [reflexivity |]. apply length_map.
    + simpl in Hc.
      repeat (destruct Hc as [<- | Hc]; [vm_compute; reflexivity |]).
      contradiction Hc.
Qed.

End Session.

Lemma X10_witness :
  exists st,
    (forall str_of, reachable str_of (fun _ v => v) st)
    /\ show_dashboard st = true
    /\ df_empty (df st) = false
    /\ List.length (records (df st)) = 2%nat.
Proof.
  eexists.
  assert (Hreach : forall str_of,
             reachable str_of (fun _ v => v)
               {| df := {| columns := FINAL_COLUMNS;
                           records :=
                             (fun rows => numbered_from (fun _ v => v) rows 1 rows)
                               (match batch_rows (fun _ => "") three_files with
                                | Ok rows => rows
                                | Raise _ => []
                                end) |};
                  show_dashboard := true |}).
  { intro str_of.
    apply (reach_process str_of (fun _ v => v) initial_session _ true three_files).
    - apply reach_initial.
    - reflexivity.
    - discriminate.
    - vm_compute. reflexivity. }
  split; [exact Hreach |].
  split; [reflexivity |].
  split.
  - pose proof (proj1 (X10_dashboard_is_shown_with_rows_only _ _ _
                         (Hreach (fun _ => "")))) as H.
    cbn [show_dashboard df] in H. cbn [df].
    destruct (df_empty _); [discriminate H | reflexivity].
  - vm_compute. reflexivity.
Defined.

(** ** The text handed to the JSON parser and the text of the pages *)

Lemma starts_with_tick (s : string) :
  starts_with "`" s = true -> exists r, s = String "`" r.
Proof.
  destruct s as [| c r]; cbn [starts_with]; [discriminate |].
  rewrite andb_true_r. intro H. apply Ascii.eqb_eq in H. subst c.
  exists r. reflexivity.
Qed.

Lemma starts_with_fence (s : string) :
  starts_with "```" s = true -> exists r, s = ("```" ++ r)%string.
Proof.
  intro H. destruct s as [| a [| b [| c r]]]; cbn [starts_with] in H;
    repeat rewrite ?andb_false_r, ?andb_true_r in H; try discriminate H.
  apply andb_true_iff in H. destruct H as [Ha H].
  apply andb_true_iff in H. destruct H as [Hb Hc].
  apply Ascii.eqb_eq in Ha, Hb, Hc. subst a b c. exists r. reflexivity.
Qed.

Lemma remove_fence_step (c : ascii) (r : string) :
  starts_with "```" (String c r) = false ->
  remove_from "```" 0 (String c r) = String c (remove_from "```" 0 r).
Proof. intro H. cbn [remove_from]. rewrite H. reflexivity. Qed.

(** After the removal of the fences, a text starts with a backquote only
    if it did before, and no fence is left. *)
Lemma remove_fence_spec (n : nat) :
  forall s,
    (String.length s <= n)%nat ->
    (starts_with "`" (remove_from "```" 0 s) = true -> starts_with "`" s = true)
    /\ contains "```" (remove_from "```" 0 s) = false.
Proof.
  induction n as [| n IH]; intros s Hlen.
  - destruct s; [split; [auto | reflexivity] | simpl in Hlen; lia].
  - destruct s as [| c r]; [split; [auto | reflexivity] |].
    destruct (starts_with "```" (String c r)) eqn:Hf.
    + destruct (starts_with_fence _ Hf) as (r3 & Hr3).
      rewrite Hr3 in *. split; [intros _; reflexivity |].
      change (remove_from "```" 0 ("```" ++ r3)) with (remove_from "```" 0 r3).
      apply IH. simpl in Hlen. lia.
    + rewrite (remove_fence_step _ _ Hf).
      assert (Hr : (String.length r <= n)%nat) by (simpl in Hlen; lia).
      destruct (IH r Hr) as [Hstart Hnone].
      split; [cbn [starts_with]; rewrite !andb_true_r; auto |].
      cbn [contains]. rewrite Hnone, orb_false_r.
      destruct (starts_with "```" (String c (remove_from "```" 0 r))) eqn:Hbad;
        [| reflexivity].
      exfalso.
      destruct (starts_with_fence _ Hbad) as (x & Hx).
      injection Hx as -> Hx.
      assert (H1 : starts_with "`" (remove_from "```" 0 r) = true)
        by (rewrite Hx; reflexivity).
      destruct (starts_with_tick _ (Hstart H1)) as (r2 & ->).
      destruct (starts_with "```" (String "`" r2)) eqn:Hf2.
      * destruct (starts_with_fence _ Hf2) as (y & Hy). injection Hy as ->.
        vm_compute in Hf. discriminate Hf.
      * rewrite (remove_fence_step _ _ Hf2) in Hx. injection Hx as Hx.
        assert (Hr2 : (String.length r2 <= n)%nat) by (simpl in Hr; lia).
        destruct (IH r2 Hr2) as [Hstart2 _].
        assert (H2 : starts_with "`" (remove_from "```" 0 r2) = true)
          by (rewrite Hx; reflexivity).
        destruct (starts_with_tick _ (Hstart2 H2)) as (r3 & ->).
        vm_compute in Hf. discriminate Hf.
Qed.

Lemma starts_with_app (p a b : string) :
  starts_with p a = true -> starts_with p (a ++ b) = true.
Proof.
  revert a. induction p as [| x p' IH]; intros a H; [reflexivity |].
  destruct a as [| y a']; [discriminate H |].
  change (String y a' ++ b)%string with (String y (a' ++ b)).
  cbn [starts_with] in *.
  apply andb_true_iff in H. destruct H as [-> H]. apply IH. exact H.
Qed.

Lemma contains_app (p a b : string) :
  contains p a = true -> contains p (a ++ b) = true.
Proof.
  induction a as [| c a' IH]; intro H.
  - simpl in H. rewrite orb_false_r in H.
    destruct p; [destruct b; reflexivity | discriminate H].
  - cbn [contains] in H. apply orb_true_iff in H.
    change (String c a' ++ b)%string with (String c (a' ++ b)).
    cbn [contains]. apply orb_true_iff. destruct H as [H | H].
    + left. apply (starts_with_app p (String c a') b H).
    + right. apply IH. exact H.
Qed.

Lemma contains_lstrip (p s : string) :
  contains p (lstrip s) = true -> contains p s = true.
Proof.
  induction s as [| c r IH]; intro H; [exact H |].
  cbn [lstrip] in H. destruct (is_space c); [| exact H].
  cbn [contains]. rewrite (IH H). apply orb_true_r.
Qed.

Lemma rstrip_prefix (s : string) : exists b, s = (rstrip s ++ b)%string.
Proof.
  induction s as [| c r (b & Hb)].
  - exists "". reflexivity.
  - cbn [rstrip]. destruct (rstrip r) as [| k kept] eqn:Hr.
    + destruct (is_space c).
      * exists (String c r). reflexivity.
      * exists b. simpl. rewrite Hb at 1. reflexivity.
    + exists b. simpl. rewrite Hb at 1. reflexivity.
Qed.

Lemma contains_rstrip (p s : string) :
  contains p (rstrip s) = true -> contains p s = true.
Proof.
  intro H. destruct (rstrip_prefix s) as (b & Hb). rewrite Hb.
  apply contains_app. exact H.
Qed.

Lemma lstrip_starts (s : string) : starts_blank (lstrip s) = false.
Proof.
  induction s as [| c r IH]; [reflexivity |].
  cbn [lstrip]. destruct (is_space c) eqn:Hc; [exact IH | cbn [starts_blank]; exact Hc].
Qed.

Lemma rstrip_starts (s : string) :
  starts_blank s = false -> starts_blank (rstrip s) = false.
Proof.
  destruct s as [| c r]; [reflexivity |].
  cbn [starts_blank]. intro Hc. cbn [rstrip].
  destruct (rstrip r); [rewrite Hc |]; cbn [starts_blank]; exact Hc.
Qed.

Lemma rstrip_ends (s : string) : ends_blank (rstrip s) = false.
Proof.
  induction s as [| c r IH]; [reflexivity |].
  cbn [rstrip]. destruct (rstrip r) as [| k kept] eqn:Hr.
  - destruct (is_space c) eqn:Hc; [reflexivity | cbn [ends_blank]; exact Hc].
  - cbn [ends_blank]. exact IH.
Qed.

Lemma contains_weaker (p q s : string) :
  (forall t, starts_with p t = true -> starts_with q t = true) ->
  contains p s = true -> contains q s = true.
Proof.
  intro Hpq. induction s as [| c r IH]; cbn [contains]; intro H.
  - rewrite orb_false_r in *. apply Hpq. exact H.
  - apply orb_true_iff in H. apply orb_true_iff.
    destruct H as [H | H]; [left; apply Hpq; exact H | right; apply IH; exact H].
Qed.

(** A text without occurrence of [old] is left as it is. *)
Lemma remove_all_absent (old s : string) :
  contains old s = false -> remove_all old s = s.
Proof.
  unfold remove_all. destruct old as [| a old']; [reflexivity |].
  induction s as [| c r IH]; intro H; [reflexivity |].
  cbn [contains] in H. apply orb_false_iff in H. destruct H as [Hs Hr].
  cbn [remove_from]. rewrite Hs, (IH Hr). reflexivity.
Qed.

Lemma json_fence_starts_with_fence (t : string) :
  starts_with "```json" t = true -> starts_with "```" t = true.
Proof.
  destruct t as [| a [| b [| c r]]]; cbn [starts_with];
    rewrite ?andb_false_r; try discriminate.
  intro H. apply andb_true_iff in H. destruct H as [-> H].
  apply andb_true_iff in H. destruct H as [-> H].
  apply andb_true_iff in H. destruct H as [-> _]. reflexivity.
Qed.

(** X11.  Whatever the oracle answers, the text [get_hierarchical_json]
    hands to [json.loads] holds no code fence (three backquotes) and has
    no ASCII blank at either end; and an answer of ASCII characters
    without fence goes through unchanged but for its surrounding
    blanks. *)
Theorem X11_clean_json_leaves_no_fence (content : string) :
  contains "```" (clean_json content) = false
  /\ starts_blank (clean_json content) = false
  /\ ends_blank (clean_json content) = false
  /\ (is_ascii content = true ->
      contains "```" content = false ->
      clean_json content = rstrip (lstrip content)).
Proof.
  unfold clean_json. split; [| split; [| split]].
  - destruct (contains "```"
                (rstrip (lstrip (remove_all "```" (remove_all "```json" content)))))
      eqn:H; [| reflexivity].
    apply contains_rstrip, contains_lstrip in H.
    unfold remove_all at 1 in H.
    rewrite (proj2 (remove_fence_spec _ _ (Nat.le_refl _))) in H. discriminate H.
  - apply rstrip_starts, lstrip_starts.
  - apply rstrip_ends.
  - intros _ H.
    assert (Hjson : contains "```json" content = false).
    { destruct (contains "```json" content) eqn:E; [| reflexivity].
      rewrite (contains_weaker _ _ _ json_fence_starts_with_fence E) in H.
      discriminate H. }
    rewrite (remove_all_absent _ _ Hjson), (remove_all_absent _ _ H). reflexivity.
Qed.

Lemma X11_witness :
  is_ascii "  [1, 2]  " = true
  /\ contains "```" "  [1, 2]  " = false
  /\ clean_json "  [1, 2]  " = "[1, 2]".
Proof.
  split; [reflexivity |]. split; [reflexivity |].
  apply (proj2 (proj2 (proj2 (X11_clean_json_leaves_no_fence "  [1, 2]  "))));
    reflexivity.
Defined.

Lemma string_app_nil_r (a : string) : (a ++ "")%string = a.
Proof. induction a as [| c a' IH]; simpl; [reflexivity | rewrite IH; reflexivity]. Qed.

Lemma string_app_assoc (a b c : string) :
  ((a ++ b) ++ c)%string = (a ++ (b ++ c))%string.
Proof. induction a as [| x a' IH]; simpl; [reflexivity | rewrite IH; reflexivity]. Qed.

Lemma extract_pdf_text_from (pages : list (option string)) :
  forall acc,
    fold_left (fun full_text page => (full_text ++ page_text page)%string) pages acc
    = (acc ++ extract_pdf_text pages)%string.
Proof.
  unfold extract_pdf_text.
  induction pages as [| page rest IH]; intro acc; cbn [fold_left].
  - symmetry. apply string_app_nil_r.
  - rewrite (IH (acc ++ page_text page)%string), (IH ("" ++ page_text page)%string).
    cbn [String.append]. apply string_app_assoc.
Qed.

Lemma append_empty (a b : string) :
  (a ++ b)%string = EmptyString <-> a = EmptyString /\ b = EmptyString.
Proof.
  destruct a; simpl; split.
  - intros ->. split; reflexivity.
  - intros [_ ->]. reflexivity.
  - discriminate.
  - intros [H _]. discriminate H.
Qed.

Lemma extract_pdf_text_cons (page : option string) (rest : list (option string)) :
  extract_pdf_text (page :: rest)
  = (page_text page ++ extract_pdf_text rest)%string.
Proof.
  unfold extract_pdf_text at 1. cbn [fold_left]. apply extract_pdf_text_from.
Qed.

Lemma extract_pdf_text_app (pages pages' : list (option string)) :
  extract_pdf_text (pages ++ pages')
  = (extract_pdf_text pages ++ extract_pdf_text pages')%string.
Proof.
  induction pages as [| page rest IH]; [reflexivity |].
  change ((page :: rest) ++ pages') with (page :: (rest ++ pages')).
  rewrite !extract_pdf_text_cons, IH. symmetry. apply string_app_assoc.
Qed.

Lemma extract_pdf_text_empty (pages : list (option string)) :
  extract_pdf_text pages = EmptyString
  <-> Forall (fun page => page = None \/ page = Some EmptyString) pages.
Proof.
  induction pages as [| page rest IH].
  - split; [constructor | reflexivity].
  - rewrite extract_pdf_text_cons, append_empty, IH. split.
    + intros [Hp Hrest]. constructor; [| exact Hrest].
      destruct page as [t |]; [right; simpl in Hp; subst t; reflexivity
                              | left; reflexivity].
    + intro H. inversion H as [| ? ? Hp Hrest]; subst.
      split; [| exact Hrest].
      destruct Hp as [-> | ->]; reflexivity.
Qed.

(** X12.  The text of a document is the text of its pages, one after the
    other, and it is empty exactly when every page gives no text or the
    empty text; such a file (a scan without text layer) is not processed,
    whatever the oracle would say of it. *)
Theorem X12_text_of_the_pages (pages pages' : list (option string)) :
  extract_pdf_text (pages ++ pages')
  = (extract_pdf_text pages ++ extract_pdf_text pages')%string
  /\ (extract_pdf_text pages = EmptyString
      <-> Forall (fun page => page = None \/ page = Some EmptyString) pages)
  /\ (Forall (fun page => page = None \/ page = Some EmptyString) pages ->
      forall json_data,
        is_processed {| extracted_text := extract_pdf_text pages;
                        hierarchical_json := json_data |} = false).
Proof.
  split; [apply extract_pdf_text_app |].
  split; [apply extract_pdf_text_empty |].
  intros H json_data. apply extract_pdf_text_empty in H.
  unfold is_processed. cbn [extracted_text]. rewrite H. reflexivity.
Qed.

Lemma X12_witness :
  Forall (fun page => page = None \/ page = Some EmptyString) [None; Some ""]
  /\ extract_pdf_text [None; Some ""] = ""
  /\ is_processed {| extracted_text := extract_pdf_text [None; Some ""];
                     hierarchical_json := scenario_1 |} = false.
Proof.
  assert (H : Forall (fun page => page = None \/ page = Some EmptyString)
                [None; Some ""]).
  { constructor; [left; reflexivity |].
    constructor; [right; reflexivity | constructor]. }
  split; [exact H |]. split; [reflexivity |].
  apply (proj2 (proj2 (X12_text_of_the_pages [None; Some ""] [])) H).
Defined.

(** ** The columns of the invoice *)

Section InvoiceColumns.

Variable str_of : value -> string.

(** X13.  Each row repeats its invoice: row by row, in order, the
    columns ["Final Invoice No."] and ["Incoterms"] hold what the row's
    invoice has under ["FINAL INVOICE NO"] and ["INCOTERMS"], the empty
    text when the invoice has no such key, once for every item of the
    invoice. *)
Theorem X13_rows_repeat_their_invoice (hierarchical_data : value)
  (rows : list row) :
  flatten_to_excel_rows str_of hierarchical_data = Ok rows ->
  map (lookup "Final Invoice No.") rows
  = flat_map (fun inv =>
                map (fun _ => Some (invoice_field inv "FINAL INVOICE NO"))
                    (items_of inv))
             (invoices_of hierarchical_data)
  /\ map (lookup "Incoterms") rows
     = flat_map (fun inv =>
                   map (fun _ => Some (invoice_field inv "INCOTERMS"))
                       (items_of inv))
                (invoices_of hierarchical_data).
Proof.
  intro H. apply flatten_emits in H. split.
  - apply (emits_column str_of _
             (fun inv => Some (invoice_field inv "FINAL INVOICE NO")) _ _ H).
    intros inv item ex_rate r Hr. apply excel_row_shape in Hr.
    destruct Hr as (h & i & d & fob_inr & qty & dbk & rod & descr
                    & _ & -> & _ & _ & _ & _ & _ & _ & ->).
    reflexivity.
  - apply (emits_column str_of _
             (fun inv => Some (invoice_field inv "INCOTERMS")) _ _ H).
    intros inv item ex_rate r Hr. apply excel_row_shape in Hr.
    destruct Hr as (h & i & d & fob_inr & qty & dbk & rod & descr
                    & _ & -> & _ & _ & _ & _ & _ & _ & ->).
    reflexivity.
Qed.

End InvoiceColumns.

Lemma X13_witness :
  exists rows,
    (forall str_of,
        flatten_to_excel_rows str_of
          (document_of (VDict []) [invoice_with_two_items]) = Ok rows)
    /\ map (lookup "Final Invoice No.") rows
       = [Some (VStr "EXP/003"); Some (VStr "EXP/003")]
    /\ map (lookup "Incoterms") rows = [Some (VStr "FOB"); Some (VStr "FOB")].
Proof.
  eexists. split; [intro str_of; vm_compute; reflexivity |].
  apply (X13_rows_repeat_their_invoice (fun _ => "")
           (document_of (VDict []) [invoice_with_two_items]) _ eq_refl).
Defined.
